(** * libetrv: the eTRV device session (device.py) and its command line (cli.py)

    A shallow embedding of [libetrv.device.eTRVDevice] and of [libetrv.cli.CLI.scan].
    The Python object is a record, the Bluetooth stack ([bluepy.btle]) is an
    explicit environment whose calls are logged in a trace, exceptions are an
    outcome type, and the [while True] loop of [connect] runs on fuel. *)

From Stdlib Require Import ZArith QArith Qabs List String Ascii Bool Lia.
From Stdlib Require Import Strings.Byte DecimalString.
Import ListNotations.

Local Open Scope Z_scope.

(* ===================================================================== *)
(** ** Python values, exceptions and outcomes *)
(* ===================================================================== *)

Module Py.

(** The exception classes that the modelled code can see: the four
    subclasses of [bluepy.btle.BTLEException] and the built-in ones. *)
Inductive exn : Type :=
| BTLEDisconnectError
| BTLEGattError
| BTLEManagementError
| BTLEInternalError
| TypeError
| AttributeError
| ValueError
| OverflowError
| OSError.

(** A call either returns a value or raises. *)
Inductive outcome (A : Type) : Type :=
| Ret (a : A)
| Raise (e : exn).
Arguments Ret {A} a.
Arguments Raise {A} e.

Definition obind {A B} (c : outcome A) (k : A -> outcome B) : outcome B :=
  match c with
  | Ret a => k a
  | Raise e => Raise e
  end.

Definition bytes := list byte.

(** [len(b)] *)
Definition len (b : bytes) : Z := Z.of_nat (List.length b).

(** A Python [float]: a finite binary64 is represented by the rational
    it denotes; the two infinities and NaN are kept apart. *)
Inductive pyfloat : Type :=
| Finite (q : Q)
| Infinity (negative : bool)
| NaN.

(** A number as the callers of the setter may pass it: [int] or [float]. *)
Inductive number : Type :=
| Int (z : Z)
| Float (f : pyfloat).

(** Python [==] on floats. *)
Definition float_eq (a b : pyfloat) : Prop :=
  match a, b with
  | Finite x, Finite y => (x == y)%Q
  | Infinity s, Infinity t => s = t
  | _, _ => False
  end.

(** First magnitude that binary64 cannot hold. *)
Definition float_limit : Z := 2 ^ 1024.

Definition Qnegative (q : Q) : bool := Qnum q <? 0.

(** [f * 2] for a float [f]. Doubling a binary64 is exact whenever the
    result is below [float_limit], and gives an infinity otherwise. *)
Definition float_double (f : pyfloat) : pyfloat :=
  match f with
  | Finite q =>
      let d := (q * 2)%Q in
      if Qle_bool (inject_Z float_limit) (Qabs d)
      then Infinity (Qnegative q)
      else Finite d
  | Infinity s => Infinity s
  | NaN => NaN
  end.

(** [value * 2] *)
Definition mul2 (v : number) : number :=
  match v with
  | Int z => Int (z * 2)
  | Float f => Float (float_double f)
  end.

(** [int(x)]: the identity on [int]; on a finite float, truncation
    toward zero; [OverflowError] on an infinity, [ValueError] on NaN. *)
Definition int (v : number) : outcome Z :=
  match v with
  | Int z => Ret z
  | Float (Finite q) => Ret (Z.quot (Qnum q) (Z.pos (Qden q)))
  | Float (Infinity _) => Raise OverflowError
  | Float NaN => Raise ValueError
  end.

(** Conversion of an [int] to [float], as [int * float] performs it:
    exact up to 53 significant bits, round-half-to-even above, and
    [OverflowError] when the rounded magnitude reaches [float_limit]. *)
Definition float_of_int (z : Z) : outcome Q :=
  let a := Z.abs z in
  let k := Z.log2 a - 52 in
  if k <=? 0 then Ret (inject_Z z)
  else
    let q := Z.shiftr a k in
    let r := Z.land a (Z.ones k) in
    let half := 2 ^ (k - 1) in
    let up := (half <? r) || ((r =? half) && Z.odd q) in
    let m := (if up then q + 1 else q) * 2 ^ k in
    if float_limit <=? m then Raise OverflowError
    else Ret (inject_Z (Z.sgn z * m)).

(** [z * .5] for an [int] [z]: convert, then halve (halving a float of
    integral value is exact). *)
Definition mul_half (z : Z) : outcome pyfloat :=
  obind (float_of_int z) (fun q => Ret (Finite (q * (1 # 2))%Q)).

(** [s.endswith(suffix)] on [str]. *)
Fixpoint startswith_list (p s : list ascii) : bool :=
  match p, s with
  | [], _ => true
  | a :: p', b :: s' => Ascii.eqb a b && startswith_list p' s'
  | _ :: _, [] => false
  end.

Definition endswith (s suffix : string) : bool :=
  startswith_list (rev (list_ascii_of_string suffix))
                  (rev (list_ascii_of_string s)).

(** A naive UTC [datetime], kept as its number of seconds since the
    epoch. *)
Inductive datetime : Type :=
| UtcDatetime (epoch_seconds : Z).

(** The first and the last second of the years 1..9999. *)
Definition datetime_min : Z := -62135596800.
Definition datetime_max : Z := 253402300799.

(** What the host decides about a timestamp: whether it fits the C type
    [time_t], and whether the C library's [gmtime] can break it down. *)
Record Platform : Type := {
  fits_time_t : Z -> bool;
  gmtime_succeeds : Z -> bool
}.

(** [datetime.utcfromtimestamp(ts)] for an [int]: [OverflowError] when
    [ts] does not fit [time_t], [OSError] when [gmtime] fails, and
    [ValueError] when the year is outside 1..9999. *)
Definition utcfromtimestamp (P : Platform) (ts : Z) : outcome datetime :=
  if negb (fits_time_t P ts) then Raise OverflowError
  else if negb (gmtime_succeeds P ts) then Raise OSError
  else if (datetime_min <=? ts) && (ts <=? datetime_max)
       then Ret (UtcDatetime ts)
       else Raise ValueError.

End Py.
Import Py.

(* ===================================================================== *)
(** ** The Bluetooth stack, as the code sees it *)
(* ===================================================================== *)

Module Btle.

(** A [btle.Peripheral] object: an opaque link identifier. *)
Inductive Peripheral : Type :=
| Link (id : nat).

Inductive level : Type := DEBUG | ERROR.

(** What the process does to the outside world, in order. Every call is
    recorded when it is made, whatever its result. *)
Inductive event : Type :=
| EvLog (lvl : level) (format : string) (arg : string)
| EvLogPlain (lvl : level) (message : string)
| EvOpen (address : string)
| EvWrite (p : Peripheral) (handle : Z) (data : bytes) (withResponse : bool)
| EvDisconnect (p : Peripheral)
| EvSleep (seconds : Q).

Definition trace := list event.

Definition is_open (e : event) : bool :=
  match e with EvOpen _ => true | _ => false end.
Definition is_write (e : event) : bool :=
  match e with EvWrite _ _ _ _ => true | _ => false end.
Definition is_disconnect (e : event) : bool :=
  match e with EvDisconnect _ => true | _ => false end.
Definition is_sleep (e : event) : bool :=
  match e with EvSleep _ => true | _ => false end.
Definition is_log (e : event) : bool :=
  match e with EvLog _ _ _ | EvLogPlain _ _ => true | _ => false end.

Definition count (f : event -> bool) (t : trace) : nat :=
  List.length (filter f t).
Arguments count : simpl never.

(** Events other than log lines. *)
Definition effects (t : trace) : trace :=
  filter (fun e => negb (is_log e)) t.

(** The behaviour of the stack and of the remote device. The first
    argument of each field is the number of earlier calls of the same
    kind: the k-th [Peripheral(address)], the k-th
    [writeCharacteristic], the k-th [disconnect]. *)
Record Stack : Type := {
  peripheral : nat -> string -> outcome Peripheral;
  writeCharacteristic : nat -> Peripheral -> Z -> bytes -> bool -> outcome unit;
  disconnect : nat -> Peripheral -> outcome unit
}.

End Btle.
Import Btle.

(* ===================================================================== *)
(** ** device.py *)
(* ===================================================================== *)

Module Device.

(** The attributes of an [eTRVDevice] instance. *)
Record eTRVDevice : Type := {
  address : string;
  secret : option bytes;
  pin : bytes;
  ble_device : option Peripheral
}.

Definition BATTERY_LEVEL_R : Z := 0x0010.
Definition PIN_W : Z := 0x0024.
Definition SETTINGS_RW : Z := 0x002a.
Definition TEMPERATURE_RW : Z := 0x002d.
Definition DEVICE_NAME_RW : Z := 0x0030.
Definition TIME_RW : Z := 0x0036.
Definition SECRET_R : Z := 0x003f.

(** [b'0000'] *)
Definition default_pin : bytes := [x30; x30; x30; x30].

(** [eTRVDevice.__init__(address, secret=None, pin=None)] *)
Definition __init__ (address : string) (secret : option bytes)
           (pin : option bytes) : eTRVDevice :=
  {| address := address;
     secret := secret;
     pin := match pin with None => default_pin | Some p => p end;
     ble_device := None |}.

Definition set_ble_device (self : eTRVDevice) (l : option Peripheral)
  : eTRVDevice :=
  {| address := address self;
     secret := secret self;
     pin := pin self;
     ble_device := l |}.

(** [is_connected] *)
Definition is_connected (self : eTRVDevice) : bool :=
  match ble_device self with Some _ => true | None => false end.

(** The state a method runs in: the object and the trace so far. *)
Definition state : Type := eTRVDevice * trace.

(** A method body: runs from a state, returns or raises, and leaves a
    state behind in both cases (Python does not roll back). *)
Definition M (A : Type) : Type := state -> outcome A * state.

Definition ret {A} (a : A) : M A := fun st => (Ret a, st).
Definition bind {A B} (c : M A) (k : A -> M B) : M B :=
  fun st =>
    match c st with
    | (Ret a, st') => k a st'
    | (Raise e, st') => (Raise e, st')
    end.
Definition emit (e : event) : M unit :=
  fun st => (Ret tt, (fst st, snd st ++ [e])).
Definition self_ : M eTRVDevice := fun st => (Ret (fst st), st).
Definition assign_ble_device (l : option Peripheral) : M unit :=
  fun st => (Ret tt, (set_ble_device (fst st) l, snd st)).
(** A call into the stack: logged, then answered by the environment. *)
Definition call {A} (e : event) (answer : trace -> outcome A) : M A :=
  fun st => (answer (snd st), (fst st, snd st ++ [e])).

Declare Scope py_scope.
Delimit Scope py_scope with py.
Notation "x <- c ;; k" := (bind c (fun x => k))
  (at level 61, c at next level, right associativity) : py_scope.
Notation "c ;; k" := (bind c (fun _ => k))
  (at level 61, right associativity) : py_scope.
Local Open Scope py_scope.

(** [logger.debug(fmt, arg)], [logger.error(fmt, arg)], [sleep(s)] *)
Definition logger_debug (fmt arg : string) : M unit := emit (EvLog DEBUG fmt arg).
Definition logger_debug0 (msg : string) : M unit := emit (EvLogPlain DEBUG msg).
Definition logger_error (fmt arg : string) : M unit := emit (EvLog ERROR fmt arg).
Definition sleep (s : Q) : M unit := emit (EvSleep s).

(** [btle.Peripheral(address)] *)
Definition Peripheral_new (B : Stack) (addr : string) : M Peripheral :=
  call (EvOpen addr) (fun t => peripheral B (count is_open t) addr).

(** [p.writeCharacteristic(handle, data, withResponse)] *)
Definition Peripheral_write (B : Stack) (p : Peripheral) (handle : Z)
           (data : bytes) (withResponse : bool) : M unit :=
  call (EvWrite p handle data withResponse)
       (fun t => writeCharacteristic B (count is_write t) p handle data withResponse).

(** [p.disconnect()] *)
Definition Peripheral_disconnect (B : Stack) (p : Peripheral) : M unit :=
  call (EvDisconnect p) (fun t => disconnect B (count is_disconnect t) p).

(** [send_pin]. The method dereferences [self.ble_device]: on [None]
    the attribute lookup raises [AttributeError]. *)
Definition send_pin (B : Stack) : M unit :=
  self <- self_ ;;
  logger_debug "Write PIN to {}" (address self) ;;
  match ble_device self with
  | Some p => Peripheral_write B p PIN_W (pin self) true
  | None => fun st => (Raise AttributeError, st)
  end.

(** The delay of [sleep(0.1)], in seconds. *)
Definition retry_delay : Q := 1 # 10.

(** The body of the [try] in [connect]. *)
Definition connect_try (B : Stack) (send_pin_flag : bool) : M unit :=
  self <- self_ ;;
  p <- Peripheral_new B (address self) ;;
  assign_ble_device (Some p) ;;
  if send_pin_flag then send_pin B else ret tt.

(** The [except btle.BTLEDisconnectError] handler. *)
Definition connect_except : M unit :=
  self <- self_ ;;
  logger_error "Unable connect to {}. Retrying in 100ms" (address self) ;;
  sleep retry_delay.

(** [while True: try: ...; break except BTLEDisconnectError: ...].
    [None] means that the loop is still running when the fuel ends. *)
Fixpoint connect_loop (B : Stack) (send_pin_flag : bool) (fuel : nat)
         (st : state) : option (outcome unit * state) :=
  match fuel with
  | O => None
  | S fuel' =>
      match connect_try B send_pin_flag st with
      | (Ret _, st') => Some (Ret tt, st')
      | (Raise BTLEDisconnectError, st') =>
          connect_loop B send_pin_flag fuel' (snd (connect_except st'))
      | (Raise e, st') => Some (Raise e, st')
      end
  end.

(** [connect(send_pin=True)] *)
Definition connect (B : Stack) (send_pin_flag : bool) (fuel : nat)
           (st : state) : option (outcome unit * state) :=
  let st1 := snd (logger_debug "Trying connect to {}" (address (fst st)) st) in
  if is_connected (fst st1) then
    Some (logger_debug "Device already connected {}" (address (fst st1)) st1)
  else connect_loop B send_pin_flag fuel st1.

(** [disconnect] (the method of [eTRVDevice]) *)
Definition disconnect (B : Stack) : M unit :=
  logger_debug0 "Disconnecting" ;;
  self <- self_ ;;
  match ble_device self with
  | Some p =>
      Peripheral_disconnect B p ;;
      assign_ble_device None
  | None => ret tt
  end.

End Device.

(* ===================================================================== *)
(** ** The decoded records handed to the readers of device.py *)
(* ===================================================================== *)

Module DataStruct.

(** Modelled from the spec: [data_struct.TemperatureStruct] is not part
    of the sources at hand. device.py reads and writes its two fields
    [room_temperature] and [set_point_temperature]; the spec gives them
    as signed integers in units of 0.5 degree. *)
Record TemperatureStruct : Type := {
  set_point_temperature : Z;
  room_temperature : Z
}.

(** Modelled from the spec: [data_struct.SettingsStruct] is not part of
    the sources at hand. device.py reads these five fields; the spec
    gives the temperatures in half degrees, the schedule mode as an
    enumeration (kept as its code) and the two dates as UTC seconds. *)
Record SettingsStruct : Type := {
  frost_protection_temperature : Z;
  schedule_mode : Z;
  vacation_temperature : Z;
  vacation_from : Z;
  vacation_to : Z
}.

End DataStruct.

Module Codec.

(** A Python object that can sit in a field of [Settings]. *)
Inductive object : Type :=
| OFloat (f : pyfloat)
| OEnum (code : Z)
| ODatetime (d : datetime).

(** [Settings = namedtuple('Settings', [...five names...])] *)
Record Settings : Type := {
  frost_protection_temperature : object;
  schedule_mode : object;
  vacation_temperature : object;
  vacation_from : object;
  vacation_to : object
}.

(** Calling the namedtuple class: it takes exactly its five fields, and
    has no defaults. *)
Definition Settings_new (args : list object) : outcome Settings :=
  match args with
  | [a; b; c; d; e] =>
      Ret {| frost_protection_temperature := a;
             schedule_mode := b;
             vacation_temperature := c;
             vacation_from := d;
             vacation_to := e |}
  | _ => Raise TypeError
  end.

(** [t.name = v] on a namedtuple instance: its fields are read-only. *)
Definition Settings_setattr (t : Settings) (name : string) (v : object)
  : outcome Settings :=
  Raise AttributeError.

Notation "x <- c ;; k" := (obind c (fun x => k))
  (at level 61, c at next level, right associativity).

(** The body of [eTRVDevice.settings], applied to the decoded record, on
    host [P]. *)
Definition settings (P : Platform) (data : DataStruct.SettingsStruct)
  : outcome Settings :=
  r <- Settings_new [] ;;
  v <- mul_half (DataStruct.frost_protection_temperature data) ;;
  r <- Settings_setattr r "frost_protection_temperature" (OFloat v) ;;
  r <- Settings_setattr r "schedule_mode" (OEnum (DataStruct.schedule_mode data)) ;;
  v <- mul_half (DataStruct.vacation_temperature data) ;;
  r <- Settings_setattr r "vacation_temperature" (OFloat v) ;;
  d <- utcfromtimestamp P (DataStruct.vacation_from data) ;;
  r <- Settings_setattr r "vacation_from" (ODatetime d) ;;
  d <- utcfromtimestamp P (DataStruct.vacation_to data) ;;
  r <- Settings_setattr r "vacation_to" (ODatetime d) ;;
  Ret r.

(** The body of the property [eTRVDevice.temperature]. *)
Definition temperature (data : DataStruct.TemperatureStruct)
  : outcome (pyfloat * pyfloat) :=
  room_temp <- mul_half (DataStruct.room_temperature data) ;;
  set_temp <- mul_half (DataStruct.set_point_temperature data) ;;
  Ret (room_temp, set_temp).

(** The properties [room_temperature] and [set_point_temperature]. *)
Definition room_temperature (data : DataStruct.TemperatureStruct)
  : outcome pyfloat :=
  p <- temperature data ;; Ret (fst p).

Definition set_point_temperature (data : DataStruct.TemperatureStruct)
  : outcome pyfloat :=
  p <- temperature data ;; Ret (snd p).

(** The body of the setter of [set_point_temperature]. [fresh] is the
    record that [TemperatureStruct()] builds. *)
Definition set_point_temperature_setter (fresh : DataStruct.TemperatureStruct)
           (value : number) : outcome DataStruct.TemperatureStruct :=
  raw <- Py.int (mul2 value) ;;
  Ret {| DataStruct.set_point_temperature := raw;
         DataStruct.room_temperature := DataStruct.room_temperature fresh |}.

End Codec.

(* ===================================================================== *)
(** ** Discovery: [eTRVDevice.scan] and [CLI.scan] *)
(* ===================================================================== *)

Module Scan.

(** A [btle.ScanEntry]: its address, its signal strength and what
    [getScanData()] returns, a list of (adtype, description, value). *)
Record ScanEntry : Type := {
  addr : string;
  rssi : Z;
  getScanData : list (Z * string * string)
}.

(** The product marker. *)
Definition marker : string := ";eTRV".

(** The test of the inner loop. *)
Definition entry_matches (e : Z * string * string) : bool :=
  let '(adtype, desc, value) := e in
  (adtype =? 9) && endswith value marker.

(** [eTRVDevice.scan(timeout)]: [scanner] stands for
    [btle.Scanner().scan]; the generator is the list of what it yields. *)
Definition scan (scanner : Q -> list ScanEntry) (timeout : Q)
  : list ScanEntry :=
  let devices := scanner timeout in
  flat_map (fun dev =>
    flat_map (fun e => if entry_matches e then [dev] else [])
             (getScanData dev))
    devices.

(** [str(z)] for an [int]. *)
Definition str_of_int (z : Z) : string :=
  DecimalString.NilZero.string_of_int (Z.to_int z).

(** ["{}, RSSI={}dB".format(device.addr, device.rssi)] *)
Definition format_device (device : ScanEntry) : string :=
  (addr device ++ ", RSSI=" ++ str_of_int (rssi device) ++ "dB")%string.

(** [CLI.scan(timeout)]: the lines it prints. *)
Definition CLI_scan (scanner : Q -> list ScanEntry) (timeout : Q)
  : list string :=
  "Detected eTRV devices:"%string :: map format_device (scan scanner timeout).

End Scan.

(* ===================================================================== *)
(** ** Vocabulary of the statements *)
(* ===================================================================== *)

Module Spec.

Import Device.

(** One failed attempt of [connect]: the open, the error line, the wait. *)
Definition failed_attempt (addr : string) : trace :=
  [EvOpen addr;
   EvLog ERROR "Unable connect to {}. Retrying in 100ms" addr;
   EvSleep retry_delay].

(** [n] failed attempts in a row. *)
Fixpoint retries (n : nat) (addr : string) : trace :=
  match n with
  | O => []
  | S n' => failed_attempt addr ++ retries n' addr
  end.

(** What [send_pin] adds to the trace on link [p]. *)
Definition pin_exchange (self : eTRVDevice) (p : Peripheral) : trace :=
  [EvLog DEBUG "Write PIN to {}" (address self);
   EvWrite p PIN_W (pin self) true].

(** The stack refuses the first [n] opens counted from trace [t] with a
    disconnect error and accepts the next one with link [p]. *)
Definition opens_after (B : Stack) (t : trace) (addr : string) (n : nat)
           (p : Peripheral) : Prop :=
  (forall k, (k < n)%nat ->
     peripheral B (count is_open t + k) addr = Raise BTLEDisconnectError) /\
  peripheral B (count is_open t + n) addr = Ret p.

(** The answer of the device to the next PIN write on link [p]. *)
Definition pin_answer (B : Stack) (t : trace) (self : eTRVDevice)
           (p : Peripheral) : outcome unit :=
  writeCharacteristic B (count is_write t) p PIN_W (pin self) true.

(** The session holds a PIN of exactly four bytes. *)
Definition pin_is_four_bytes (self : eTRVDevice) : Prop :=
  len (pin self) = 4.

(** Same identity: address, secret and PIN. *)
Definition same_identity (a b : eTRVDevice) : Prop :=
  address a = address b /\ secret a = secret b /\ pin a = pin b.

(** [z] is [x] truncated toward zero. *)
Definition truncation_of (x : Q) (z : Z) : Prop :=
  (0 <= x -> inject_Z z <= x /\ x < inject_Z z + 1)%Q /\
  (x <= 0 -> inject_Z z - 1 < x /\ x <= inject_Z z)%Q.

(** [z] is an integer nearest to [x]. *)
Definition nearest_to (x : Q) (z : Z) : Prop :=
  (Qabs (x - inject_Z z) <= 1 # 2)%Q.

(** The binary64 that the literal [21.3] denotes: 5995417003936973 / 2^48,
    the multiple of 2^-48 nearest to 213/10. *)
Definition float_21_3 : Q := 5995417003936973 # 281474976710656.

(** The rational value of a finite number. *)
Definition value_of (v : number) : option Q :=
  match v with
  | Int z => Some (inject_Z z)
  | Float (Finite q) => Some q
  | Float _ => None
  end.

(** A multiple of one half. *)
Definition half_step (q : Q) : Prop := exists k : Z, (q == k # 2)%Q.

(** The device advertises a complete local name (adtype 9) that ends
    with [";eTRV"]. *)
Definition advertises_etrv (dev : Scan.ScanEntry) : Prop :=
  exists desc value prefix,
    In (9, desc, value) (Scan.getScanData dev) /\
    value = (prefix ++ ";eTRV")%string.

Definition advertises_etrvb (dev : Scan.ScanEntry) : bool :=
  existsb Scan.entry_matches (Scan.getScanData dev).

(** [getScanData()] lists each adtype at most once (bluepy keeps the
    advertisement fields in a dictionary keyed by adtype). *)
Definition adtypes_distinct (dev : Scan.ScanEntry) : Prop :=
  NoDup (map (fun e => fst (fst e)) (Scan.getScanData dev)).

(** The calls a user of the class can make on a session. *)
Inductive method : Type :=
| CallConnect (send_pin_flag : bool) (fuel : nat)
| CallDisconnect
| CallSendPin.

(** The state one call leaves behind, whether it returns or raises
    (a caller may catch the exception and go on with the object);
    [None] when [connect] does not come back within its fuel. *)
Definition call_method (B : Stack) (m : method) (st : state) : option state :=
  match m with
  | CallConnect flag fuel =>
      match connect B flag fuel st with
      | Some (_, st') => Some st'
      | None => None
      end
  | CallDisconnect => Some (snd (Device.disconnect B st))
  | CallSendPin => Some (snd (send_pin B st))
  end.

Fixpoint call_methods (B : Stack) (ms : list method) (st : state)
  : option state :=
  match ms with
  | [] => Some st
  | m :: ms' =>
      match call_method B m st with
      | Some st' => call_methods B ms' st'
      | None => None
      end
  end.

(** Every characteristic write of the trace carries [data] to the PIN
    slot, with response. *)
Definition writes_only_pin (data : bytes) (t : trace) : Prop :=
  forall l h d w, In (EvWrite l h d w) t -> h = PIN_W /\ d = data /\ w = true.

(** The PIN a constructor call asks for. *)
Definition supplied_pin (pin : option bytes) : bytes :=
  match pin with None => default_pin | Some q => q end.

(** What holds of a session built with PIN [q], at every point of its
    life: it still has that PIN, and its trace has written nothing but
    that PIN. *)
Definition pin_invariant (addr : string) (sec : option bytes) (q : bytes)
           (st : state) : Prop :=
  address (fst st) = addr /\ secret (fst st) = sec /\ pin (fst st) = q /\
  writes_only_pin q (snd st).

(** [value * 2] stays a finite number. *)
Definition doubles_finitely (v : number) : Prop :=
  match v with
  | Int _ => True
  | Float (Finite q) => (Qabs (q * 2) < inject_Z float_limit)%Q
  | Float _ => False
  end.

(** An [int] that converts to [float] without rounding. *)
Definition exact_int (z : Z) : Prop := Z.abs z < 2 ^ 53.

End Spec.
Import Spec.

(* ===================================================================== *)
(** ** Sample sessions and stacks *)
(* ===================================================================== *)

Module Sample.

Import Device.
Local Open Scope string_scope.

Definition valve_address : string := "00:04:2f:06:24:d1".

(** A session built with the defaults. *)
Definition fresh_session : eTRVDevice := __init__ valve_address None None.

(** A session whose link is up. *)
Definition linked_session : eTRVDevice :=
  set_ble_device fresh_session (Some (Link 7)).

(** A stack on which everything succeeds. *)
Definition steady : Stack :=
  {| peripheral := fun k _ => Ret (Link k);
     writeCharacteristic := fun _ _ _ _ _ => Ret tt;
     Btle.disconnect := fun _ _ => Ret tt |}.

(** A stack whose first two opens are refused. *)
Definition flaky : Stack :=
  {| peripheral := fun k _ =>
       if (k <? 2)%nat then Raise BTLEDisconnectError else Ret (Link k);
     writeCharacteristic := fun _ _ _ _ _ => Ret tt;
     Btle.disconnect := fun _ _ => Ret tt |}.

(** A device that answers every write with a GATT error. *)
Definition refusing : Stack :=
  {| peripheral := fun k _ => Ret (Link k);
     writeCharacteristic := fun _ _ _ _ _ => Raise BTLEGattError;
     Btle.disconnect := fun _ _ => Ret tt |}.

(** A device that drops the link on the first write and accepts the
    second. *)
Definition dropping : Stack :=
  {| peripheral := fun k _ => Ret (Link k);
     writeCharacteristic := fun k _ _ _ _ =>
       if (k =? 0)%nat then Raise BTLEDisconnectError else Ret tt;
     Btle.disconnect := fun _ _ => Ret tt |}.

(** [b'12345'] *)
Definition five_byte_pin : bytes := [x31; x32; x33; x34; x35].

Definition long_pin_session : eTRVDevice :=
  __init__ valve_address None (Some five_byte_pin).

(** What [TemperatureStruct()] is taken to build in the samples. *)
Definition blank_temperature : DataStruct.TemperatureStruct :=
  {| DataStruct.set_point_temperature := 0;
     DataStruct.room_temperature := 0 |}.

(** A decoded temperature record: set point 21.0, room 19.5. *)
Definition temperature_payload : DataStruct.TemperatureStruct :=
  {| DataStruct.set_point_temperature := 42;
     DataStruct.room_temperature := 39 |}.

(** A decoded settings record: frost protection 6.0, vacation 17.0. *)
Definition settings_payload : DataStruct.SettingsStruct :=
  {| DataStruct.frost_protection_temperature := 12;
     DataStruct.schedule_mode := 0;
     DataStruct.vacation_temperature := 34;
     DataStruct.vacation_from := 1546300800;
     DataStruct.vacation_to := 1546905600 |}.

(** Three advertisers: a valve, a device of another kind, and one that
    carries the marker in its shortened name (adtype 8) only. *)
Definition valve_entry : Scan.ScanEntry :=
  {| Scan.addr := valve_address;
     Scan.rssi := -67;
     Scan.getScanData :=
       [(1, "Flags", "06"); (9, "Complete Local Name", "0;0:04:2F:06:24:D1;eTRV")] |}.

Definition other_entry : Scan.ScanEntry :=
  {| Scan.addr := "c4:7c:8d:6a:5e:01";
     Scan.rssi := -80;
     Scan.getScanData :=
       [(1, "Flags", "06"); (9, "Complete Local Name", "Flower care")] |}.

Definition short_name_entry : Scan.ScanEntry :=
  {| Scan.addr := "00:04:2f:aa:bb:cc";
     Scan.rssi := -50;
     Scan.getScanData := [(8, "Short Local Name", "0;0:04:2F;eTRV")] |}.

Definition scanner (timeout : Q) : list Scan.ScanEntry :=
  [other_entry; valve_entry; short_name_entry].

End Sample.

From Stdlib Require Import Lqa.

(* ===================================================================== *)
(** ** The readers of raw bytes *)
(* ===================================================================== *)

Module Raw.

(** [bytes.hex()]: two lowercase hexadecimal digits for each byte. *)
Definition hexdigits : list ascii := list_ascii_of_string "0123456789abcdef".

Definition hex_digit (n : nat) : ascii := nth n hexdigits "0"%char.

Definition hex_byte (b : byte) : list ascii :=
  let n := Byte.to_nat b in
  [hex_digit (n / 16); hex_digit (n mod 16)].

Definition hex (data : bytes) : string :=
  string_of_list_ascii (flat_map hex_byte data).

(** [x in chars] for a byte and a bytes object. *)
Definition byte_in (x : byte) (chars : bytes) : bool :=
  existsb (Byte.eqb x) chars.

(** [data.lstrip(chars)], [data.rstrip(chars)], [data.strip(chars)]. *)
Fixpoint lstrip (chars data : bytes) : bytes :=
  match data with
  | [] => []
  | x :: rest => if byte_in x chars then lstrip chars rest else data
  end.

Definition rstrip (chars data : bytes) : bytes :=
  rev (lstrip chars (rev data)).

Definition strip (chars data : bytes) : bytes :=
  rstrip chars (lstrip chars data).

(** The result of [data.decode('ascii')]: the text, or the
    [UnicodeDecodeError] with the position of the first byte above 127. *)
Inductive decoded : Type :=
| Text (s : string)
| UnicodeDecodeError (start : nat).

Fixpoint decode_ascii_from (start : nat) (data : bytes) : decoded :=
  match data with
  | [] => Text EmptyString
  | b :: rest =>
      if (Byte.to_N b <? 128)%N then
        match decode_ascii_from (S start) rest with
        | Text s => Text (String (ascii_of_byte b) s)
        | UnicodeDecodeError k => UnicodeDecodeError k
        end
      else UnicodeDecodeError start
  end.

Definition decode_ascii (data : bytes) : decoded := decode_ascii_from 0 data.

(** The body of [eTRVDevice.retrieve_secret_key]. *)
Definition retrieve_secret_key (data : bytes) : string := hex data.

(** The body of the property [eTRVDevice.device_name]. *)
Definition device_name (data : bytes) : decoded :=
  decode_ascii (strip [x00] data).

End Raw.

Module SpecMore.

Import Raw.

(** The value of a hexadecimal digit, lowercase only. *)
Definition unhex_digit (c : ascii) : option nat :=
  match find (fun p => Ascii.eqb (snd p) c)
             (combine (seq 0 16) hexdigits) with
  | Some p => Some (fst p)
  | None => None
  end.

(** The byte that two hexadecimal digits spell. *)
Definition unhex_pair (hi lo : ascii) : option byte :=
  match unhex_digit hi, unhex_digit lo with
  | Some h, Some l => Byte.of_nat (h * 16 + l)
  | _, _ => None
  end.

(** Reading back a string of hexadecimal digit pairs. *)
Fixpoint unhex_list (l : list ascii) : option bytes :=
  match l with
  | [] => Some []
  | hi :: lo :: rest =>
      match unhex_pair hi lo, unhex_list rest with
      | Some b, Some bs => Some (b :: bs)
      | _, _ => None
      end
  | [_] => None
  end.

Definition unhex (s : string) : option bytes :=
  unhex_list (list_ascii_of_string s).

(** A byte of the ASCII range. *)
Definition is_ascii (b : byte) : Prop := (Byte.to_N b < 128)%N.

(** [s.encode('ascii')] for a text of ASCII characters. *)
Definition encode_ascii (s : string) : bytes :=
  map byte_of_ascii (list_ascii_of_string s).

(** [n] NUL bytes. *)
Definition nuls (n : nat) : bytes := repeat x00 n.

(** The text neither starts nor ends with NUL. *)
Definition no_outer_nul (data : bytes) : Prop :=
  hd_error data <> Some x00 /\ hd_error (rev data) <> Some x00.

(** The raw value that the setter stores for [v], when it stores one. *)
Definition stored_raw (v : number) : option Z :=
  match Py.int (mul2 v) with
  | Ret raw => Some raw
  | Raise _ => None
  end.

(** What a run of the loop that comes back has done. *)
Definition loop_summary (flag : bool) (t : trace) (r : outcome unit)
           (self' : Device.eTRVDevice) (t' : trace) : Prop :=
  (count is_open t' + count is_sleep t = S (count is_open t + count is_sleep t'))%nat /\
  count is_disconnect t' = count is_disconnect t /\
  (flag = false -> count is_write t' = count is_write t) /\
  (count is_write t' + count is_open t <= count is_write t + count is_open t')%nat /\
  (r = Ret tt -> Device.is_connected self' = true) /\
  r <> Raise BTLEDisconnectError /\
  (forall s, In (EvSleep s) t' -> In (EvSleep s) t \/ s = Device.retry_delay).

(** [-v] *)
Definition negate (v : number) : number :=
  match v with
  | Int z => Int (- z)
  | Float (Finite q) => Float (Finite (- q))
  | Float (Infinity s) => Float (Infinity (negb s))
  | Float NaN => Float NaN
  end.

End SpecMore.
Import SpecMore.

Module Fixtures.

(** A stack whose link opens fail for want of privileges. *)
Definition unprivileged : Stack :=
  {| peripheral := fun _ _ => Raise BTLEManagementError;
     writeCharacteristic := fun _ _ _ _ _ => Ret tt;
     Btle.disconnect := fun _ _ => Ret tt |}.

(** A stack that refuses every open with a disconnect error. *)
Definition unreachable : Stack :=
  {| peripheral := fun _ _ => Raise BTLEDisconnectError;
     writeCharacteristic := fun _ _ _ _ _ => Ret tt;
     Btle.disconnect := fun _ _ => Ret tt |}.

(** A stack whose first two opens are refused, on a device that then
    answers the PIN write with a GATT error. *)
Definition flaky_refusing : Stack :=
  {| peripheral := fun k _ =>
       if (k <? 2)%nat then Raise BTLEDisconnectError else Ret (Link k);
     writeCharacteristic := fun _ _ _ _ _ => Raise BTLEGattError;
     Btle.disconnect := fun _ _ => Ret tt |}.

(** A stack whose teardown fails. *)
Definition stuck : Stack :=
  {| peripheral := fun k _ => Ret (Link k);
     writeCharacteristic := fun _ _ _ _ _ => Ret tt;
     Btle.disconnect := fun _ _ => Raise BTLEInternalError |}.

(** [b'\x00\x00eTRV\x00'] *)
Definition padded_name : bytes := [x00; x00; x65; x54; x52; x56; x00].

(** A sixteen-byte key. *)
Definition key : bytes :=
  [x00; x01; x7f; x80; xff; xa5; x5a; x10; x0f; xf0; x12; x34; x56; x78; x9a; xbc].

(** A scan that sees no valve. *)
Definition quiet_scanner (timeout : Q) : list Scan.ScanEntry :=
  [Sample.other_entry; Sample.short_name_entry].

End Fixtures.

(* ===================================================================== *)
(** ** Traces *)
(* ===================================================================== *)

Lemma count_app f (t u : trace) : count f (t ++ u) = (count f t + count f u)%nat.
Proof. unfold count. now rewrite filter_app, length_app. Qed.

Lemma count_retries_open n addr : count is_open (retries n addr) = n.
Proof. induction n as [|n IH]; [reflexivity|]. unfold count in *. cbn. now rewrite IH. Qed.

Lemma count_retries_write n addr : count is_write (retries n addr) = 0%nat.
Proof. induction n as [|n IH]; [reflexivity|]. unfold count in *. cbn. exact IH. Qed.

Lemma count_retries_sleep n addr : count is_sleep (retries n addr) = n.
Proof. induction n as [|n IH]; [reflexivity|]. unfold count in *. cbn. now rewrite IH. Qed.

Lemma effects_app (t u : trace) : effects (t ++ u) = effects t ++ effects u.
Proof. apply filter_app. Qed.

Lemma retries_snoc n addr :
  retries (S n) addr = retries n addr ++ failed_attempt addr.
Proof.
  induction n as [|n IH]; [reflexivity|].
  change (retries (S (S n)) addr) with (failed_attempt addr ++ retries (S n) addr).
  rewrite IH at 1. now rewrite app_assoc.
Qed.

(** Every wait in a run of retries lasts [retry_delay]. *)
Lemma retries_sleeps n addr s :
  In (EvSleep s) (retries n addr) -> s = Device.retry_delay.
Proof.
  induction n as [|n IH]; cbn; [tauto|].
  intros [H|[H|[H|H]]]; try discriminate; [congruence | auto].
Qed.

(* ===================================================================== *)
(** ** connect *)
(* ===================================================================== *)

Section Connect.

Variable B : Stack.
Variable self : Device.eTRVDevice.

(** A refused open costs one turn of the loop and leaves the object as
    it was. *)
Lemma connect_loop_refused flag fuel t :
  peripheral B (count is_open t) (Device.address self) = Raise BTLEDisconnectError ->
  Device.connect_loop B flag (S fuel) (self, t) =
  Device.connect_loop B flag fuel (self, t ++ failed_attempt (Device.address self)).
Proof.
  intros H. cbn. unfold Device.connect_try, Device.bind, Device.self_,
    Device.Peripheral_new, Device.call. cbn. rewrite H. cbn.
  now rewrite <- !app_assoc.
Qed.

(** [n] refused opens cost [n] turns. *)
Lemma connect_loop_skip flag n : forall fuel t,
  (forall k, (k < n)%nat ->
     peripheral B (count is_open t + k) (Device.address self) = Raise BTLEDisconnectError) ->
  Device.connect_loop B flag (n + fuel) (self, t) =
  Device.connect_loop B flag fuel (self, t ++ retries n (Device.address self)).
Proof.
  induction n as [|n IH]; intros fuel t H.
  - cbn [retries Nat.add]. now rewrite app_nil_r.
  - change (S n + fuel)%nat with (S (n + fuel)).
    rewrite connect_loop_refused
      by (rewrite <- (Nat.add_0_r (count is_open t)); apply H; lia).
    rewrite IH.
    + cbn [retries]. now rewrite <- app_assoc.
    + intros k Hk. rewrite count_app.
      change (count is_open (failed_attempt (Device.address self))) with 1%nat.
      replace (count is_open t + 1 + k)%nat with (count is_open t + S k)%nat by lia.
      apply H. lia.
Qed.

(** The turn in which the open succeeds and no PIN is sent. *)
Lemma connect_loop_linked_nopin fuel t p :
  peripheral B (count is_open t) (Device.address self) = Ret p ->
  Device.connect_loop B false (S fuel) (self, t) =
  Some (Ret tt, (Device.set_ble_device self (Some p), t ++ [EvOpen (Device.address self)])).
Proof.
  intros H. cbn. unfold Device.connect_try, Device.bind, Device.self_,
    Device.Peripheral_new, Device.call. cbn. now rewrite H.
Qed.

(** The state in which the PIN write is answered. *)
Lemma connect_try_pin t p :
  peripheral B (count is_open t) (Device.address self) = Ret p ->
  Device.connect_try B true (self, t) =
  (pin_answer B t self p,
   (Device.set_ble_device self (Some p),
    t ++ [EvOpen (Device.address self)] ++ pin_exchange self p)).
Proof.
  intros H. unfold Device.connect_try, Device.bind, Device.self_,
    Device.Peripheral_new, Device.call. cbn. rewrite H. cbn.
  unfold Device.Peripheral_write, Device.call, pin_answer, pin_exchange.
  cbn [fst snd]. rewrite !count_app.
  change (count is_write [EvOpen (Device.address self)]) with 0%nat.
  change (count is_write [EvLog DEBUG "Write PIN to {}" (Device.address self)]) with 0%nat.
  rewrite !Nat.add_0_r, <- !app_assoc. reflexivity.
Qed.

End Connect.

(** The wait between attempts is 100 ms. *)
Lemma retry_delay_100ms : (Device.retry_delay * 1000 == 100)%Q.
Proof. reflexivity. Qed.

Lemma pin_answer_after B t u self p :
  count is_write u = 0%nat ->
  pin_answer B (t ++ u) self p = pin_answer B t self p.
Proof.
  intros H. unfold pin_answer. now rewrite count_app, H, Nat.add_0_r.
Qed.

Lemma opens_after_log B t e addr n p :
  is_open e = false ->
  opens_after B t addr n p -> opens_after B (t ++ [e]) addr n p.
Proof.
  intros He [H1 H2]. unfold opens_after. rewrite count_app.
  replace (count is_open [e]) with 0%nat
    by (unfold count; cbn; now rewrite He).
  rewrite Nat.add_0_r. now split.
Qed.

(** The loop: [n] refused opens, then the turn of [connect_try] at the
    accepted open. *)
Lemma connect_loop_reaches B self flag t n p fuel :
  opens_after B t (Device.address self) n p ->
  Device.connect_loop B flag (n + fuel) (self, t) =
  Device.connect_loop B flag fuel (self, t ++ retries n (Device.address self)).
Proof.
  intros [H _]. now apply connect_loop_skip.
Qed.

(** C2, amended. When the link open is refused [n] times with a disconnect error
    and then accepted (and the PIN write, if one is asked for, is
    accepted), [connect] returns normally for every fuel above [n]: the
    session holds the new link, the trace shows [n] refused opens each
    followed by one wait of [retry_delay] (100 ms), then the accepted
    open, and nothing is raised. *)
Theorem connect_retries_until_linked
        (B : Stack) (self : Device.eTRVDevice) (t : trace) (flag : bool)
        (n fuel : nat) (p : Peripheral) :
  Device.ble_device self = None ->
  opens_after B t (Device.address self) n p ->
  (flag = true -> pin_answer B t self p = Ret tt) ->
  (n < fuel)%nat ->
  let addr := Device.address self in
  Device.connect B flag fuel (self, t) =
    Some (Ret tt,
          (Device.set_ble_device self (Some p),
           t ++ [EvLog DEBUG "Trying connect to {}" addr]
             ++ retries n addr
             ++ [EvOpen addr]
             ++ (if flag then pin_exchange self p else []))) /\
  Device.is_connected (Device.set_ble_device self (Some p)) = true /\
  count is_sleep (retries n addr) = n /\
  (forall s, In (EvSleep s) (retries n addr) -> (s * 1000 == 100)%Q).
Proof.
  intros Hs Ho Hp Hf addr. repeat split.
  - unfold Device.connect. cbn [Device.logger_debug Device.emit fst snd].
    unfold Device.is_connected. rewrite Hs. fold addr.
    replace fuel with (n + S (fuel - n - 1))%nat by lia.
    assert (Ho' : opens_after B (t ++ [EvLog DEBUG "Trying connect to {}" addr])
                              addr n p) by (now apply opens_after_log).
    rewrite (connect_loop_reaches B self flag _ n p) by assumption.
    fold addr. destruct Ho' as [_ Hok].
    set (t1 := (t ++ [EvLog DEBUG "Trying connect to {}" addr]) ++ retries n addr).
    assert (Hopen : peripheral B (count is_open t1) addr = Ret p).
    { unfold t1. now rewrite count_app, count_retries_open. }
    destruct flag.
    + cbn [Device.connect_loop]. rewrite connect_try_pin with (p := p) by exact Hopen.
      assert (Hans : pin_answer B t1 self p = Ret tt).
      { unfold t1. rewrite pin_answer_after by apply count_retries_write.
        rewrite pin_answer_after by reflexivity. now apply Hp. }
      rewrite Hans. unfold t1. fold addr. now rewrite <- !app_assoc.
    + rewrite connect_loop_linked_nopin with (p := p) by exact Hopen.
      unfold t1. fold addr. now rewrite <- !app_assoc, app_nil_r.
  - apply count_retries_sleep.
  - intros s H. apply retries_sleeps in H. subst s. reflexivity.
Qed.

(** C2, on a stack whose first two opens are refused. *)
Lemma connect_retries_until_linked_witness :
  Device.connect Sample.flaky true 3 (Sample.fresh_session, []) =
    Some (Ret tt,
          (Device.set_ble_device Sample.fresh_session (Some (Link 2)),
           [] ++ [EvLog DEBUG "Trying connect to {}" Sample.valve_address]
              ++ retries 2 Sample.valve_address
              ++ [EvOpen Sample.valve_address]
              ++ pin_exchange Sample.fresh_session (Link 2))).
Proof.
  apply (connect_retries_until_linked Sample.flaky Sample.fresh_session []
           true 2 3 (Link 2)).
  - reflexivity.
  - split; [intros k Hk; cbn; destruct k as [|[|k]]; [reflexivity|reflexivity|lia]
           | reflexivity].
  - reflexivity.
  - lia.
Defined.

(** C2 as stated fails: the link open is refused twice and then
    accepted, yet [connect()] (with its default [send_pin=True]) does
    not end connected without an error when the device then answers the
    PIN write with a GATT error: the error reaches the caller. *)
Lemma connect_linked_but_pin_refused :
  opens_after Fixtures.flaky_refusing [] Sample.valve_address 2 (Link 2) /\
  Device.connect Fixtures.flaky_refusing true 3 (Sample.fresh_session, []) =
    Some (Raise BTLEGattError,
          (Device.set_ble_device Sample.fresh_session (Some (Link 2)),
           [EvLog DEBUG "Trying connect to {}" Sample.valve_address;
            EvOpen Sample.valve_address;
            EvLog ERROR "Unable connect to {}. Retrying in 100ms" Sample.valve_address;
            EvSleep Device.retry_delay;
            EvOpen Sample.valve_address;
            EvLog ERROR "Unable connect to {}. Retrying in 100ms" Sample.valve_address;
            EvSleep Device.retry_delay;
            EvOpen Sample.valve_address;
            EvLog DEBUG "Write PIN to {}" Sample.valve_address;
            EvWrite (Link 2) Device.PIN_W Device.default_pin true])).
Proof.
  split; [|reflexivity].
  split; [|reflexivity].
  intros k Hk. destruct k as [|[|k]]; [reflexivity|reflexivity|lia].
Qed.

(** C1 as stated fails: a PIN write that the device answers by dropping
    the link raises [BTLEDisconnectError], which the handler of [connect]
    takes for a link failure. On [Sample.dropping] the first PIN write is
    refused, yet [connect] waits, opens a second link, writes the PIN a
    second time and returns normally. *)
Lemma connect_pin_disconnect_is_retried :
  pin_answer Sample.dropping [] Sample.fresh_session (Link 0)
    = Raise BTLEDisconnectError /\
  Device.connect Sample.dropping true 2 (Sample.fresh_session, []) =
    Some (Ret tt,
          (Device.set_ble_device Sample.fresh_session (Some (Link 1)),
           [EvLog DEBUG "Trying connect to {}" Sample.valve_address;
            EvOpen Sample.valve_address;
            EvLog DEBUG "Write PIN to {}" Sample.valve_address;
            EvWrite (Link 0) Device.PIN_W Device.default_pin true;
            EvLog ERROR "Unable connect to {}. Retrying in 100ms" Sample.valve_address;
            EvSleep Device.retry_delay;
            EvOpen Sample.valve_address;
            EvLog DEBUG "Write PIN to {}" Sample.valve_address;
            EvWrite (Link 1) Device.PIN_W Device.default_pin true])).
Proof. split; reflexivity. Qed.

(** C1, amended. After [n] refused opens and an accepted one, let the PIN
    write raise [e]. If [e] is not [BTLEDisconnectError], [connect] raises
    that same [e] to the caller after exactly one PIN write, with no wait
    after it, and the session keeps the link object. If [e] is
    [BTLEDisconnectError], nothing is raised at that point: the handler
    logs, waits [retry_delay] and the loop goes on from there. *)
Theorem connect_pin_error
        (B : Stack) (self : Device.eTRVDevice) (t : trace)
        (n fuel : nat) (p : Peripheral) (e : exn) :
  Device.ble_device self = None ->
  opens_after B t (Device.address self) n p ->
  pin_answer B t self p = Raise e ->
  let addr := Device.address self in
  let linked := Device.set_ble_device self (Some p) in
  let t' := t ++ [EvLog DEBUG "Trying connect to {}" addr]
              ++ retries n addr ++ [EvOpen addr] ++ pin_exchange self p in
  (e <> BTLEDisconnectError ->
   Device.connect B true (n + S fuel) (self, t) = Some (Raise e, (linked, t')) /\
   count is_write t' = S (count is_write t)) /\
  (e = BTLEDisconnectError ->
   Device.connect B true (n + S fuel) (self, t) =
   Device.connect_loop B true fuel
     (linked,
      t' ++ [EvLog ERROR "Unable connect to {}. Retrying in 100ms" addr;
             EvSleep Device.retry_delay])).
Proof.
  intros Hs Ho Hp addr linked t'.
  assert (Ho' : opens_after B (t ++ [EvLog DEBUG "Trying connect to {}" addr])
                            addr n p) by (now apply opens_after_log).
  assert (Hc : Device.connect B true (n + S fuel) (self, t) =
               match e with
               | BTLEDisconnectError =>
                   Device.connect_loop B true fuel
                     (snd (Device.connect_except (linked, t')))
               | _ => Some (Raise e, (linked, t'))
               end).
  { unfold Device.connect. cbn [Device.logger_debug Device.emit fst snd].
    unfold Device.is_connected. rewrite Hs. fold addr.
    rewrite (connect_loop_reaches B self true _ n p) by assumption.
    fold addr. destruct Ho' as [_ Hok].
    assert (Hopen : peripheral B
              (count is_open ((t ++ [EvLog DEBUG "Trying connect to {}" addr])
                                ++ retries n addr)) addr = Ret p)
      by (now rewrite count_app, count_retries_open).
    cbn [Device.connect_loop].
    rewrite connect_try_pin with (p := p) by exact Hopen.
    rewrite pin_answer_after by apply count_retries_write.
    rewrite pin_answer_after by reflexivity.
    rewrite Hp. fold addr. fold linked.
    replace (((t ++ [EvLog DEBUG "Trying connect to {}" addr]) ++ retries n addr)
               ++ [EvOpen addr] ++ pin_exchange self p) with t'
      by (unfold t'; now rewrite <- !app_assoc).
    destruct e; reflexivity. }
  split.
  - intros Hne. split.
    + rewrite Hc. destruct e; try reflexivity. congruence.
    + unfold t'. rewrite !count_app, count_retries_write.
      unfold count. cbn. lia.
  - intros ->. rewrite Hc. unfold Device.connect_except, Device.bind,
      Device.self_, Device.logger_error, Device.sleep, Device.emit.
    cbn [fst snd]. unfold linked at 2. cbn [Device.address Device.set_ble_device].
    fold addr. now rewrite <- !app_assoc.
Qed.

(** C1 amended, on a device that answers the PIN write with a GATT
    error: the error reaches the caller at once. *)
Lemma connect_pin_error_witness :
  Device.connect Sample.refusing true (0 + 1) (Sample.fresh_session, []) =
    Some (Raise BTLEGattError,
          (Device.set_ble_device Sample.fresh_session (Some (Link 0)),
           [] ++ [EvLog DEBUG "Trying connect to {}" Sample.valve_address]
              ++ retries 0 Sample.valve_address
              ++ [EvOpen Sample.valve_address]
              ++ pin_exchange Sample.fresh_session (Link 0))).
Proof.
  refine (proj1 (proj1 (connect_pin_error Sample.refusing Sample.fresh_session
                   [] 0 0 (Link 0) BTLEGattError _ _ _) _)).
  - reflexivity.
  - split; [intros k Hk; lia | reflexivity].
  - reflexivity.
  - discriminate.
Defined.

(** C7. [connect] on a session that already holds a link returns at once:
    the object is unchanged, and the trace gains two log lines and
    nothing else, so no link is opened and nothing is written. *)
Theorem connect_noop_when_linked
        (B : Stack) (self : Device.eTRVDevice) (t : trace) (flag : bool)
        (fuel : nat) (p : Peripheral) :
  Device.ble_device self = Some p ->
  let addr := Device.address self in
  let t' := t ++ [EvLog DEBUG "Trying connect to {}" addr;
                  EvLog DEBUG "Device already connected {}" addr] in
  Device.connect B flag fuel (self, t) = Some (Ret tt, (self, t')) /\
  effects t' = effects t /\
  count is_open t' = count is_open t /\
  count is_write t' = count is_write t.
Proof.
  intros Hs addr t'. repeat split.
  - unfold Device.connect. cbn [Device.logger_debug Device.emit fst snd].
    unfold Device.is_connected. rewrite Hs.
    unfold Device.logger_debug, Device.emit. cbn [fst snd]. fold addr.
    unfold t'. now rewrite <- app_assoc.
  - unfold t'. rewrite effects_app. cbn. apply app_nil_r.
  - unfold t'. rewrite count_app. unfold count. cbn. lia.
  - unfold t'. rewrite count_app. unfold count. cbn. lia.
Qed.

(** C7, on a linked session and a stack that would refuse everything it
    is asked. *)
Lemma connect_noop_when_linked_witness :
  Device.connect Sample.refusing true 0 (Sample.linked_session, []) =
    Some (Ret tt,
          (Sample.linked_session,
           [] ++ [EvLog DEBUG "Trying connect to {}" Sample.valve_address;
                  EvLog DEBUG "Device already connected {}" Sample.valve_address])).
Proof.
  apply (connect_noop_when_linked Sample.refusing Sample.linked_session []
           true 0 (Link 7)).
  reflexivity.
Defined.

(* ===================================================================== *)
(** ** disconnect *)
(* ===================================================================== *)

Lemma disconnect_unlinked B self t :
  Device.ble_device self = None ->
  Device.disconnect B (self, t) =
  (Ret tt, (self, t ++ [EvLogPlain DEBUG "Disconnecting"])).
Proof.
  intros H. unfold Device.disconnect, Device.bind, Device.logger_debug0,
    Device.emit, Device.self_. cbn [fst snd]. now rewrite H.
Qed.

Lemma disconnect_linked B self t p :
  Device.ble_device self = Some p ->
  Device.disconnect B (self, t) =
  match Btle.disconnect B (count is_disconnect t) p with
  | Ret _ => (Ret tt, (Device.set_ble_device self None,
                       t ++ [EvLogPlain DEBUG "Disconnecting"; EvDisconnect p]))
  | Raise e => (Raise e, (self, t ++ [EvLogPlain DEBUG "Disconnecting";
                                      EvDisconnect p]))
  end.
Proof.
  intros H. unfold Device.disconnect, Device.bind, Device.logger_debug0,
    Device.emit, Device.self_. cbn [fst snd]. rewrite H.
  unfold Device.Peripheral_disconnect, Device.call, Device.assign_ble_device.
  cbn [fst snd]. rewrite count_app.
  change (count is_disconnect [EvLogPlain DEBUG "Disconnecting"]) with 0%nat.
  rewrite Nat.add_0_r, <- app_assoc.
  destruct (Btle.disconnect B (count is_disconnect t) p); reflexivity.
Qed.

(** C8 as stated fails: on a stack whose teardown raises, [disconnect]
    raises too and leaves the session with its link, so the session is
    not disconnected afterwards. *)
Lemma disconnect_teardown_failure :
  fst (Device.disconnect Fixtures.stuck (Sample.linked_session, []))
    = Raise BTLEInternalError /\
  Device.is_connected
    (fst (snd (Device.disconnect Fixtures.stuck (Sample.linked_session, []))))
    = true /\
  snd (snd (Device.disconnect Fixtures.stuck (Sample.linked_session, [])))
    = [EvLogPlain DEBUG "Disconnecting"; EvDisconnect (Link 7)].
Proof. repeat split. Qed.

(** C8, amended. Provided the stack's own teardown returns, [disconnect] returns
    normally and leaves the session without a link, having torn down the
    link it held (one [EvDisconnect]) or done nothing on the stack when
    it held none; address, secret and PIN are kept. A second [disconnect]
    right after returns normally too, leaves the object as it is and does
    nothing on the stack. *)
Theorem disconnect_idempotent
        (B : Stack) (self : Device.eTRVDevice) (t : trace) :
  (forall p, Device.ble_device self = Some p ->
             Btle.disconnect B (count is_disconnect t) p = Ret tt) ->
  let once := Device.disconnect B (self, t) in
  let twice := Device.disconnect B (snd once) in
  fst once = Ret tt /\
  Device.is_connected (fst (snd once)) = false /\
  same_identity (fst (snd once)) self /\
  effects (snd (snd once)) =
    effects t ++ match Device.ble_device self with
                 | Some p => [EvDisconnect p]
                 | None => []
                 end /\
  fst twice = Ret tt /\
  fst (snd twice) = fst (snd once) /\
  effects (snd (snd twice)) = effects (snd (snd once)).
Proof.
  intros H once twice. subst twice once.
  destruct (Device.ble_device self) as [p|] eqn:E.
  - rewrite (disconnect_linked B self t p E), (H p eq_refl). cbn [fst snd].
    rewrite disconnect_unlinked by reflexivity. cbn [fst snd].
    rewrite !effects_app. cbn. rewrite app_nil_r.
    repeat split; reflexivity.
  - rewrite (disconnect_unlinked B self t E). cbn [fst snd].
    rewrite (disconnect_unlinked B self _ E). cbn [fst snd].
    unfold Device.is_connected. rewrite E, !effects_app. cbn.
    rewrite !app_nil_r. repeat split; reflexivity.
Qed.

(** C8, on a linked session. *)
Lemma disconnect_idempotent_witness :
  Device.is_connected
    (fst (snd (Device.disconnect Sample.steady (Sample.linked_session, []))))
  = false.
Proof.
  refine (proj1 (proj2 (disconnect_idempotent Sample.steady
                          Sample.linked_session [] _))).
  intros p _. reflexivity.
Defined.

(* ===================================================================== *)
(** ** The PIN of a session *)
(* ===================================================================== *)

Section PinInvariant.

Variable B : Stack.
Variable addr : string.
Variable sec : option bytes.
Variable q : bytes.

Lemma writes_only_pin_app t u :
  writes_only_pin q t -> writes_only_pin q u -> writes_only_pin q (t ++ u).
Proof.
  intros Ht Hu l h d w Hin. apply in_app_or in Hin as [Hin|Hin]; eauto.
Qed.

Lemma writes_only_pin_quiet e :
  is_write e = false -> writes_only_pin q [e].
Proof.
  intros He l h d w [Hin|[]]. subst e. discriminate.
Qed.

Lemma writes_only_pin_write l :
  writes_only_pin q [EvWrite l Device.PIN_W q true].
Proof.
  intros l' h d w [Hin|[]]. now inversion Hin.
Qed.

Ltac pin_invariant_intro :=
  split; [|split; [|split]]; unfold Device.ret; cbn [fst snd].

Create HintDb pin.
Local Hint Resolve writes_only_pin_app writes_only_pin_quiet
      writes_only_pin_write : pin.

Lemma send_pin_invariant st : pin_invariant addr sec q st -> pin_invariant addr sec q (snd (Device.send_pin B st)).
Proof.
  destruct st as [self t]. intros (Ha & Hs & Hp & Hw). cbn [fst snd] in *.
  unfold Device.send_pin, Device.bind, Device.self_, Device.logger_debug,
    Device.emit. cbn [fst snd].
  destruct (Device.ble_device self) as [l|]; cbn [fst snd].
  - unfold Device.Peripheral_write, Device.call. cbn [fst snd].
    rewrite Hp. pin_invariant_intro; auto 6 with pin.
  - pin_invariant_intro; auto with pin.
Qed.

Lemma connect_try_invariant flag st :
  pin_invariant addr sec q st -> pin_invariant addr sec q (snd (Device.connect_try B flag st)).
Proof.
  destruct st as [self t]. intros (Ha & Hs & Hp & Hw). cbn [fst snd] in *.
  unfold Device.connect_try, Device.bind, Device.self_,
    Device.Peripheral_new, Device.call. cbn [fst snd].
  destruct (peripheral B (count is_open t) (Device.address self)) as [l|e];
    cbn [fst snd].
  - unfold Device.assign_ble_device. cbn [fst snd].
    destruct flag.
    + apply send_pin_invariant. pin_invariant_intro; auto with pin.
    + pin_invariant_intro; auto with pin.
  - pin_invariant_intro; auto with pin.
Qed.

Lemma connect_except_invariant st :
  pin_invariant addr sec q st -> pin_invariant addr sec q (snd (Device.connect_except st)).
Proof.
  destruct st as [self t]. intros (Ha & Hs & Hp & Hw). cbn [fst snd] in *.
  unfold Device.connect_except, Device.bind, Device.self_,
    Device.logger_error, Device.sleep, Device.emit. cbn [fst snd].
  pin_invariant_intro; auto 6 with pin.
Qed.

Lemma connect_loop_invariant flag fuel : forall st r st',
  pin_invariant addr sec q st -> Device.connect_loop B flag fuel st = Some (r, st') -> pin_invariant addr sec q st'.
Proof.
  induction fuel as [|fuel IH]; intros st r st' Hinv Hrun; [discriminate|].
  cbn [Device.connect_loop] in Hrun.
  pose proof (connect_try_invariant flag st Hinv) as Htry.
  destruct (Device.connect_try B flag st) as [[u|e] st1]; cbn [snd] in Htry.
  - now inversion Hrun; subst.
  - destruct e; try (now inversion Hrun; subst).
    eapply IH; [|exact Hrun]. now apply connect_except_invariant.
Qed.

Lemma connect_invariant flag fuel st r st' :
  pin_invariant addr sec q st -> Device.connect B flag fuel st = Some (r, st') -> pin_invariant addr sec q st'.
Proof.
  destruct st as [self t]. intros Hinv Hrun.
  assert (H1 : pin_invariant addr sec q (self, t ++ [EvLog DEBUG "Trying connect to {}"
                                      (Device.address self)])).
  { destruct Hinv as (Ha & Hs & Hp & Hw). pin_invariant_intro; auto with pin. }
  unfold Device.connect in Hrun.
  cbn [Device.logger_debug Device.emit fst snd] in Hrun.
  destruct (Device.is_connected self).
  - inversion Hrun; subst. cbn [fst snd].
    destruct H1 as (Ha & Hs & Hp & Hw). pin_invariant_intro; auto with pin.
  - eapply connect_loop_invariant; eauto.
Qed.

Lemma disconnect_invariant st : pin_invariant addr sec q st -> pin_invariant addr sec q (snd (Device.disconnect B st)).
Proof.
  destruct st as [self t]. intros (Ha & Hs & Hp & Hw). cbn [fst snd] in *.
  destruct (Device.ble_device self) as [l|] eqn:E.
  - rewrite (disconnect_linked B self t l E).
    destruct (Btle.disconnect B (count is_disconnect t) l); cbn [fst snd];
      pin_invariant_intro; auto; apply writes_only_pin_app; auto;
      change [EvLogPlain DEBUG "Disconnecting"; EvDisconnect l]
        with ([EvLogPlain DEBUG "Disconnecting"] ++ [EvDisconnect l]);
      auto with pin.
  - rewrite (disconnect_unlinked B self t E). cbn [fst snd].
    pin_invariant_intro; auto with pin.
Qed.

Lemma call_method_invariant m st st' :
  pin_invariant addr sec q st -> call_method B m st = Some st' -> pin_invariant addr sec q st'.
Proof.
  intros Hinv Hrun. destruct m as [flag fuel| |]; cbn in Hrun.
  - destruct (Device.connect B flag fuel st) as [[r st1]|] eqn:E;
      [|discriminate].
    inversion Hrun; subst. eapply connect_invariant; eauto.
  - inversion Hrun; subst. now apply disconnect_invariant.
  - inversion Hrun; subst. now apply send_pin_invariant.
Qed.

Lemma call_methods_invariant ms : forall st st',
  pin_invariant addr sec q st -> call_methods B ms st = Some st' -> pin_invariant addr sec q st'.
Proof.
  induction ms as [|m ms IH]; intros st st' Hinv Hrun; cbn in Hrun.
  - now inversion Hrun; subst.
  - destruct (call_method B m st) as [st1|] eqn:E; [|discriminate].
    eapply IH; [|exact Hrun]. eapply call_method_invariant; eauto.
Qed.

End PinInvariant.

Lemma init_invariant addr sec pin0 :
  pin_invariant addr sec (supplied_pin pin0) (Device.__init__ addr sec pin0, []).
Proof.
  split; [|split; [|split]]; try reflexivity. intros l h d w [].
Qed.

(** C10 as stated fails: the constructor keeps whatever PIN it is given.
    A session built with the five bytes [b'12345'] holds a five-byte PIN,
    and [connect] writes those five bytes to the PIN slot. *)
Lemma pin_of_five_bytes_is_kept :
  ~ pin_is_four_bytes Sample.long_pin_session /\
  len (Device.pin Sample.long_pin_session) = 5 /\
  Device.connect Sample.steady true 1 (Sample.long_pin_session, []) =
    Some (Ret tt,
          (Device.set_ble_device Sample.long_pin_session (Some (Link 0)),
           [EvLog DEBUG "Trying connect to {}" Sample.valve_address;
            EvOpen Sample.valve_address;
            EvLog DEBUG "Write PIN to {}" Sample.valve_address;
            EvWrite (Link 0) Device.PIN_W Sample.five_byte_pin true])).
Proof.
  split; [|split]; try reflexivity.
  unfold pin_is_four_bytes. cbn. discriminate.
Qed.

(** C10, amended. The PIN of a session is the value the constructor was
    given, of whatever length, or [b'0000'] when it was given none; no
    sequence of [connect], [disconnect] and [send_pin] calls changes it,
    and every characteristic write they make carries exactly that value
    to the PIN slot. So the PIN held is four bytes long when the
    constructor was given none, and, when it was given [q], exactly when
    [q] is four bytes long. *)
Theorem pin_is_the_supplied_one
        (B : Stack) (addr : string) (sec pin0 : option bytes)
        (ms : list method) (st : Device.state) :
  call_methods B ms (Device.__init__ addr sec pin0, []) = Some st ->
  Device.pin (fst st) = supplied_pin pin0 /\
  (forall l h d w, In (EvWrite l h d w) (snd st) ->
                   h = Device.PIN_W /\ d = supplied_pin pin0 /\ w = true) /\
  (pin0 = None -> pin_is_four_bytes (fst st)) /\
  (forall q, pin0 = Some q ->
             Device.pin (fst st) = q /\
             (pin_is_four_bytes (fst st) <-> len q = 4)).
Proof.
  intros Hrun.
  pose proof (call_methods_invariant B addr sec (supplied_pin pin0) ms _ st
                (init_invariant addr sec pin0) Hrun) as (_ & _ & Hp & Hw).
  split; [exact Hp|]. split; [exact Hw|]. split.
  - intros ->. unfold pin_is_four_bytes. now rewrite Hp.
  - intros q ->. unfold pin_is_four_bytes. rewrite Hp. cbn [supplied_pin].
    split; [reflexivity | tauto].
Qed.

(** C10 amended, on a session built with the five bytes [b'12345'] that
    connects, sends the PIN once more and disconnects: the five bytes
    are still its PIN. *)
Lemma pin_is_the_supplied_one_witness :
  Device.pin
    (fst (Device.set_ble_device Sample.long_pin_session None,
          [EvLog DEBUG "Trying connect to {}" Sample.valve_address;
           EvOpen Sample.valve_address;
           EvLog DEBUG "Write PIN to {}" Sample.valve_address;
           EvWrite (Link 0) Device.PIN_W Sample.five_byte_pin true;
           EvLog DEBUG "Write PIN to {}" Sample.valve_address;
           EvWrite (Link 0) Device.PIN_W Sample.five_byte_pin true;
           EvLogPlain DEBUG "Disconnecting";
           EvDisconnect (Link 0)]))
  = supplied_pin (Some Sample.five_byte_pin).
Proof.
  refine (proj1
    (pin_is_the_supplied_one Sample.steady Sample.valve_address None
       (Some Sample.five_byte_pin)
       [CallConnect true 1; CallSendPin; CallDisconnect] _ _)).
  reflexivity.
Defined.

(* ===================================================================== *)
(** ** Numbers *)
(* ===================================================================== *)

Lemma truncation_of_quot (q : Q) :
  truncation_of q (Z.quot (Qnum q) (Z.pos (Qden q))).
Proof.
  destruct q as [a d]. unfold truncation_of, Qle, Qlt.
  cbn [Qnum Qden inject_Z Qplus Qminus Qopp].
  pose proof (Z.quot_rem' a (Z.pos d)) as E.
  rewrite !Z.mul_1_r.
  split; intros H.
  - assert (0 <= a) by lia.
    pose proof (Z.rem_bound_pos a (Z.pos d) ltac:(lia) ltac:(lia)).
    split; nia.
  - assert (a <= 0) by lia.
    pose proof (Z.rem_bound_abs a (Z.pos d) ltac:(lia)).
    pose proof (Z.rem_nonpos a (Z.pos d) ltac:(lia) ltac:(lia)).
    split; nia.
Qed.

Lemma truncation_of_double_int z : truncation_of (inject_Z z * 2) (z * 2).
Proof.
  unfold truncation_of, Qle, Qlt. cbn. split; intros; split; lia.
Qed.

Lemma float_of_int_exact z : exact_int z -> float_of_int z = Ret (inject_Z z).
Proof.
  unfold exact_int. intros H. unfold float_of_int.
  destruct (Z.leb_spec (Z.log2 (Z.abs z) - 52) 0) as [|Hk]; [reflexivity|].
  exfalso.
  destruct (Z.eq_dec (Z.abs z) 0) as [E|E].
  - rewrite E in Hk. cbn in Hk. lia.
  - apply Z.log2_lt_pow2 in H; lia.
Qed.

Lemma mul_half_exact z :
  exact_int z -> mul_half z = Ret (Finite (inject_Z z * (1 # 2))).
Proof. intros H. unfold mul_half. now rewrite float_of_int_exact. Qed.

Lemma float_double_finite q :
  (Qabs (q * 2) < inject_Z float_limit)%Q ->
  float_double (Finite q) = Finite (q * 2).
Proof.
  intros H. unfold float_double. cbv zeta.
  destruct (Qle_bool (inject_Z float_limit) (Qabs (q * 2))) eqn:E;
    [|reflexivity].
  apply Qle_bool_iff in E. exfalso. eapply Qlt_not_le; eauto.
Qed.

Lemma float_limit_large : 2 ^ 53 < float_limit.
Proof. unfold float_limit. apply Z.pow_lt_mono_r; lia. Qed.

(* ===================================================================== *)
(** ** The temperature codec *)
(* ===================================================================== *)

(** C3. For every number [v] whose double is finite, the setter returns
    a record whose set-point field is [int(v * 2)], and that integer is
    [v * 2] truncated toward zero; the other field is the one of the
    fresh record. For the float [21.3] (the binary64 within 2^-49 of
    213/10) the field is 42, although the nearest integer to its double
    is 43. *)
Theorem setter_truncates (fresh : DataStruct.TemperatureStruct) (v : number) :
  doubles_finitely v ->
  (exists (x : Q) (raw : Z),
     value_of v = Some x /\
     Py.int (mul2 v) = Ret raw /\
     Codec.set_point_temperature_setter fresh v =
       Ret {| DataStruct.set_point_temperature := raw;
              DataStruct.room_temperature := DataStruct.room_temperature fresh |} /\
     truncation_of (x * 2) raw) /\
  Codec.set_point_temperature_setter fresh (Float (Finite float_21_3)) =
    Ret {| DataStruct.set_point_temperature := 42;
           DataStruct.room_temperature := DataStruct.room_temperature fresh |} /\
  nearest_to (float_21_3 * 2) 43 /\
  ~ nearest_to (float_21_3 * 2) 42 /\
  (Qabs (float_21_3 - (213 # 10)) <= 1 # 562949953421312)%Q.
Proof.
  intros Hv. split; [|split; [|split; [|split]]].
  - destruct v as [z | [q | s | ]]; cbn in Hv; try contradiction.
    + exists (inject_Z z), (z * 2).
      split; [reflexivity|]. split; [reflexivity|]. split; [reflexivity|].
      apply truncation_of_double_int.
    + exists q, (Z.quot (Qnum (q * 2)) (Z.pos (Qden (q * 2)))).
      unfold Codec.set_point_temperature_setter. cbn [mul2 value_of].
      rewrite (float_double_finite q Hv). cbn [Py.int obind].
      split; [reflexivity|]. split; [reflexivity|]. split; [reflexivity|].
      apply truncation_of_quot.
  - reflexivity.
  - unfold nearest_to. vm_compute. discriminate.
  - unfold nearest_to. vm_compute. intros H. now apply H.
  - vm_compute. discriminate.
Qed.

(** C3, at the float [21.3]. *)
Lemma setter_truncates_witness :
  exists (x : Q) (raw : Z),
    value_of (Float (Finite float_21_3)) = Some x /\
    Py.int (mul2 (Float (Finite float_21_3))) = Ret raw /\
    Codec.set_point_temperature_setter Sample.blank_temperature
      (Float (Finite float_21_3)) =
      Ret {| DataStruct.set_point_temperature := raw;
             DataStruct.room_temperature :=
               DataStruct.room_temperature Sample.blank_temperature |} /\
    truncation_of (x * 2) raw.
Proof.
  refine (proj1 (setter_truncates Sample.blank_temperature
                   (Float (Finite float_21_3)) _)).
  vm_compute. reflexivity.
Defined.

(** The setter on a multiple of one half: the field is twice the value. *)
Lemma setter_on_half_step fresh (v : Q) (k : Z) :
  (v == k # 2)%Q ->
  (Qabs (v * 2) < inject_Z float_limit)%Q ->
  Codec.set_point_temperature_setter fresh (Float (Finite v)) =
    Ret {| DataStruct.set_point_temperature := k;
           DataStruct.room_temperature := DataStruct.room_temperature fresh |}.
Proof.
  intros Hk Hfin. unfold Codec.set_point_temperature_setter. cbn [mul2].
  rewrite (float_double_finite v Hfin). cbn [Py.int obind].
  destruct v as [a d]. unfold Qeq in Hk. cbn [Qnum Qden Qmult] in *.
  replace (a * 2) with (k * Z.pos d) by lia.
  replace (Z.pos (d * 1)) with (Z.pos d) by lia.
  rewrite Z.quot_mul by lia. reflexivity.
Qed.

(** C4. For every temperature [v] between -50 and 50 that is a multiple
    of one half, the setter returns a record, the read conversion of its
    set-point field returns a float, and that float equals [v]; the
    property [temperature] returns it as its second component whenever
    the room field converts. *)
Theorem set_point_roundtrip (fresh : DataStruct.TemperatureStruct) (v : Q) :
  (-50 <= v)%Q -> (v <= 50)%Q -> half_step v ->
  exists (st : DataStruct.TemperatureStruct) (f : pyfloat),
    Codec.set_point_temperature_setter fresh (Float (Finite v)) = Ret st /\
    mul_half (DataStruct.set_point_temperature st) = Ret f /\
    float_eq f (Finite v) /\
    (forall r, mul_half (DataStruct.room_temperature fresh) = Ret r ->
               Codec.temperature st = Ret (r, f) /\
               Codec.set_point_temperature st = Ret f).
Proof.
  intros Hlo Hhi [k Hk].
  pose proof float_limit_large as HL.
  assert (Hrange : -100 <= k <= 100).
  { rewrite Hk in Hlo, Hhi. unfold Qle in Hlo, Hhi. cbn in Hlo, Hhi. lia. }
  assert (Hfin : (Qabs (v * 2) < inject_Z float_limit)%Q).
  { apply Qabs_Qlt_condition. rewrite Hk. unfold Qlt.
    cbn [Qnum Qden Qmult Qopp inject_Z]. split; lia. }
  assert (Hex : exact_int k) by (unfold exact_int; lia).
  eexists. exists (Finite (inject_Z k * (1 # 2))).
  split; [exact (setter_on_half_step fresh v k Hk Hfin)|].
  cbn [DataStruct.set_point_temperature DataStruct.room_temperature].
  split; [now apply mul_half_exact|]. split.
  - cbn [float_eq]. rewrite Hk. unfold Qeq. cbn. lia.
  - intros r Hr. unfold Codec.set_point_temperature, Codec.temperature.
    cbn [DataStruct.set_point_temperature DataStruct.room_temperature].
    rewrite Hr, (mul_half_exact k Hex). split; reflexivity.
Qed.

(** C4, at 21.5 degrees. *)
Lemma set_point_roundtrip_witness :
  exists (st : DataStruct.TemperatureStruct) (f : pyfloat),
    Codec.set_point_temperature_setter Sample.blank_temperature
      (Float (Finite (43 # 2))) = Ret st /\
    mul_half (DataStruct.set_point_temperature st) = Ret f /\
    float_eq f (Finite (43 # 2)) /\
    (forall r,
       mul_half (DataStruct.room_temperature Sample.blank_temperature) = Ret r ->
       Codec.temperature st = Ret (r, f) /\
       Codec.set_point_temperature st = Ret f).
Proof.
  apply (set_point_roundtrip Sample.blank_temperature (43 # 2)).
  - vm_compute. discriminate.
  - vm_compute. discriminate.
  - exists 43. reflexivity.
Defined.

(** C5. On a decoded record whose two fields convert exactly (any
    fixed-width field of up to 53 bits does), [temperature] returns the
    pair (room, set point), each the raw integer times one half; the raw
    value 42 reads as 21.0. *)
Theorem temperature_halves (data : DataStruct.TemperatureStruct) :
  exact_int (DataStruct.room_temperature data) ->
  exact_int (DataStruct.set_point_temperature data) ->
  Codec.temperature data =
    Ret (Finite (inject_Z (DataStruct.room_temperature data) * (1 # 2)),
         Finite (inject_Z (DataStruct.set_point_temperature data) * (1 # 2))) /\
  (DataStruct.set_point_temperature data = 42 ->
   exists r f, Codec.temperature data = Ret (r, f) /\ float_eq f (Finite 21)).
Proof.
  intros Hr Hs.
  assert (E : Codec.temperature data =
    Ret (Finite (inject_Z (DataStruct.room_temperature data) * (1 # 2)),
         Finite (inject_Z (DataStruct.set_point_temperature data) * (1 # 2)))).
  { unfold Codec.temperature.
    now rewrite (mul_half_exact _ Hr), (mul_half_exact _ Hs). }
  split; [exact E|].
  intros H42. do 2 eexists. split; [exact E|].
  rewrite H42. reflexivity.
Qed.

(** C5, on the record with set point 42 and room 39. *)
Lemma temperature_halves_witness :
  Codec.temperature Sample.temperature_payload =
    Ret (Finite (inject_Z 39 * (1 # 2)), Finite (inject_Z 42 * (1 # 2))).
Proof.
  refine (proj1 (temperature_halves Sample.temperature_payload _ _));
    vm_compute; reflexivity.
Defined.

(* ===================================================================== *)
(** ** The settings reader *)
(* ===================================================================== *)

(** C6. The settings reader returns no record: on every decoded settings
    record, the body of [settings] raises [TypeError] at its first line,
    [Settings()], because the namedtuple class needs its five fields. *)
Theorem settings_always_raises (P : Platform) (data : DataStruct.SettingsStruct) :
  Codec.settings P data = Raise TypeError.
Proof. reflexivity. Qed.

(** Past the constructor, each of the five assignments would raise too. *)
Lemma settings_assignment_raises (r : Codec.Settings) name v :
  Codec.Settings_setattr r name v = Raise AttributeError.
Proof. reflexivity. Qed.

(** The settings reader on a well-formed record. *)
Lemma settings_on_payload (P : Platform) :
  Codec.settings P Sample.settings_payload = Raise TypeError.
Proof. reflexivity. Qed.

(* ===================================================================== *)
(** ** Discovery *)
(* ===================================================================== *)

Lemma startswith_list_spec p : forall s,
  startswith_list p s = true <-> exists r, s = p ++ r.
Proof.
  induction p as [|a p IH]; intros s; cbn.
  - split; [intros _; now exists s | reflexivity].
  - destruct s as [|b s].
    + split; [discriminate | intros [r H]; discriminate].
    + rewrite andb_true_iff, Ascii.eqb_eq, IH. split.
      * intros [-> [r ->]]. now exists r.
      * intros [r H]. inversion H; subst. split; [reflexivity | now exists r].
Qed.

Lemma list_ascii_of_string_app (a b : string) :
  list_ascii_of_string (a ++ b) = list_ascii_of_string a ++ list_ascii_of_string b.
Proof. induction a as [|c a IH]; cbn; [reflexivity | now rewrite IH]. Qed.

(** [endswith] holds exactly of the strings that are some prefix followed
    by the suffix. *)
Lemma endswith_spec (s suffix : string) :
  endswith s suffix = true <-> exists prefix, s = (prefix ++ suffix)%string.
Proof.
  unfold endswith. rewrite startswith_list_spec. split.
  - intros [r H]. exists (string_of_list_ascii (rev r)).
    apply (f_equal (@rev ascii)) in H. rewrite rev_involutive, rev_app_distr,
      rev_involutive in H.
    rewrite <- (string_of_list_ascii_of_string s), H.
    rewrite <- (string_of_list_ascii_of_string
                  (string_of_list_ascii (rev r) ++ suffix)).
    now rewrite list_ascii_of_string_app, list_ascii_of_string_of_list_ascii.
  - intros [prefix ->]. exists (rev (list_ascii_of_string prefix)).
    now rewrite list_ascii_of_string_app, rev_app_distr.
Qed.

Lemma entry_matches_spec adtype desc value :
  Scan.entry_matches (adtype, desc, value) = true <->
  adtype = 9 /\ exists prefix, value = (prefix ++ Scan.marker)%string.
Proof.
  unfold Scan.entry_matches. now rewrite andb_true_iff, Z.eqb_eq, endswith_spec.
Qed.

Lemma advertises_etrvb_spec dev :
  advertises_etrvb dev = true <-> advertises_etrv dev.
Proof.
  unfold advertises_etrvb, advertises_etrv. rewrite existsb_exists. split.
  - intros [[[adtype desc] value] [Hin Hm]].
    apply entry_matches_spec in Hm as [-> [prefix ->]].
    now exists desc, (prefix ++ Scan.marker)%string, prefix.
  - intros (desc & value & prefix & Hin & ->).
    exists (9, desc, (prefix ++ Scan.marker)%string). split; [exact Hin|].
    apply entry_matches_spec. split; [reflexivity | now exists prefix].
Qed.

(** A device is among the yielded ones exactly when the scanner saw it
    and it advertises the marker; this needs nothing of the scan data. *)
Lemma scan_membership scanner timeout dev :
  In dev (Scan.scan scanner timeout) <->
  In dev (scanner timeout) /\ advertises_etrv dev.
Proof.
  unfold Scan.scan. rewrite in_flat_map, <- advertises_etrvb_spec.
  unfold advertises_etrvb. rewrite existsb_exists. split.
  - intros [d [Hd Hin]]. apply in_flat_map in Hin as [e [He Hin]].
    destruct (Scan.entry_matches e) eqn:E; [|contradiction].
    destruct Hin as [<-|[]]. split; [exact Hd | now exists e].
  - intros [Hd [e [He E]]]. exists dev. split; [exact Hd|].
    apply in_flat_map. exists e. split; [exact He|]. rewrite E. now left.
Qed.

(** With each adtype listed once, the inner loop yields its device at
    most once. *)
Lemma inner_loop_once (dev : Scan.ScanEntry) (data : list (Z * string * string)) :
  NoDup (map (fun e => fst (fst e)) data) ->
  flat_map (fun e => if Scan.entry_matches e then [dev] else []) data =
  if existsb Scan.entry_matches data then [dev] else [].
Proof.
  induction data as [|[[adtype desc] value] data IH]; intros Hnd; [reflexivity|].
  cbn [flat_map existsb map fst] in *. inversion Hnd as [|? ? Hnotin Hnd']; subst.
  rewrite (IH Hnd').
  destruct (Scan.entry_matches (adtype, desc, value)) eqn:E; [|reflexivity].
  cbn [orb app]. apply entry_matches_spec in E as [-> _].
  destruct (existsb Scan.entry_matches data) eqn:E'; [|reflexivity].
  exfalso. apply Hnotin. apply existsb_exists in E' as [[[a d] v] [Hin Hm]].
  apply entry_matches_spec in Hm as [-> _].
  apply in_map_iff. now exists (9, d, v).
Qed.

(** With each device's scan data listing an adtype at most once, [scan]
    is the filter of the scanner's entries, in the scanner's order. *)
Lemma scan_is_filter (scanner : Q -> list Scan.ScanEntry) (timeout : Q) :
  (forall dev, In dev (scanner timeout) -> adtypes_distinct dev) ->
  Scan.scan scanner timeout = filter advertises_etrvb (scanner timeout).
Proof.
  intros Hd. unfold Scan.scan.
  induction (scanner timeout) as [|dev devs IH]; [reflexivity|].
  cbn [flat_map filter].
  rewrite inner_loop_once by (apply Hd; now left).
  rewrite IH by (intros d Hin; apply Hd; now right).
  unfold advertises_etrvb at 2.
  destruct (existsb Scan.entry_matches (Scan.getScanData dev)); reflexivity.
Qed.

(** C9. Whatever the scanner saw, a device is yielded by [scan] exactly
    when it is one of the scanner's entries and its scan data has an
    entry of adtype 9 whose value ends with [";eTRV"]; a yielded item is
    the scanner's own entry, with its address and signal strength, and
    [CLI.scan] prints, after its header, exactly the lines made of the
    address and signal strength of the yielded devices. No other device
    is yielded and no other line is printed. *)
Theorem scan_yields_exactly_etrv
        (scanner : Q -> list Scan.ScanEntry) (timeout : Q) :
  (forall dev,
     In dev (Scan.scan scanner timeout) <->
     In dev (scanner timeout) /\
     exists desc value prefix,
       In (9, desc, value) (Scan.getScanData dev) /\
       value = (prefix ++ ";eTRV")%string) /\
  (forall line,
     In line (Scan.CLI_scan scanner timeout) <->
     line = "Detected eTRV devices:"%string \/
     exists dev,
       In dev (Scan.scan scanner timeout) /\
       line = (Scan.addr dev ++ ", RSSI="
                 ++ Scan.str_of_int (Scan.rssi dev) ++ "dB")%string).
Proof.
  split.
  - intros dev. apply (scan_membership scanner timeout dev).
  - intros line. unfold Scan.CLI_scan. cbn [In]. rewrite in_map_iff.
    unfold Scan.format_device. split.
    + intros [H|(dev & H & Hin)]; [left; now symmetry|].
      right. exists dev. split; [exact Hin | now symmetry].
    + intros [H|(dev & Hin & H)]; [left; now symmetry|].
      right. exists dev. split; [now symmetry | exact Hin].
Qed.

(** C9, on three advertisers: the valve is yielded with its signal
    strength, the plant sensor is not, and neither is the device that
    carries the marker in its shortened name (adtype 8) only. *)
Lemma scan_yields_exactly_etrv_witness :
  In Sample.valve_entry (Scan.scan Sample.scanner 10) /\
  ~ In Sample.other_entry (Scan.scan Sample.scanner 10) /\
  ~ In Sample.short_name_entry (Scan.scan Sample.scanner 10) /\
  In "00:04:2f:06:24:d1, RSSI=-67dB"%string (Scan.CLI_scan Sample.scanner 10).
Proof.
  pose proof (scan_yields_exactly_etrv Sample.scanner 10) as [Hdev Hline].
  assert (Hvalve : In Sample.valve_entry (Scan.scan Sample.scanner 10)).
  { apply Hdev. split; [cbn; auto|].
    exists "Complete Local Name"%string, "0;0:04:2F:06:24:D1;eTRV"%string,
           "0;0:04:2F:06:24:D1"%string.
    split; [cbn; auto | reflexivity]. }
  split; [exact Hvalve|]. split; [|split].
  - intros H. apply Hdev in H as [_ (desc & value & prefix & Hin & Hv)].
    cbn in Hin. destruct Hin as [Hin|[Hin|[]]]; inversion Hin; subst.
    assert (E : endswith "Flower care" ";eTRV" = true)
      by (apply endswith_spec; now exists prefix).
    vm_compute in E. discriminate E.
  - intros H. apply Hdev in H as [_ (desc & value & prefix & Hin & Hv)].
    cbn in Hin. destruct Hin as [Hin|[]]. inversion Hin.
  - apply Hline. right. exists Sample.valve_entry.
    split; [exact Hvalve | reflexivity].
Defined.

(** What the sample scan yields and what the command prints. *)
Lemma scan_sample_run :
  Scan.scan Sample.scanner 10 = [Sample.valve_entry] /\
  Scan.CLI_scan Sample.scanner 10 =
    ["Detected eTRV devices:"; "00:04:2f:06:24:d1, RSSI=-67dB"]%string.
Proof. split; reflexivity. Qed.

(** The loop has no bound of its own: on a stack that refuses every open
    with a disconnect error, [connect] is still running at the end of
    any fuel. *)
Lemma connect_never_returns B self t flag fuel :
  Device.ble_device self = None ->
  (forall k, peripheral B k (Device.address self) = Raise BTLEDisconnectError) ->
  Device.connect B flag fuel (self, t) = None.
Proof.
  intros Hs Hall. unfold Device.connect.
  cbn [Device.logger_debug Device.emit fst snd].
  unfold Device.is_connected. rewrite Hs.
  rewrite <- (Nat.add_0_r fuel), connect_loop_skip by (intros; apply Hall).
  reflexivity.
Qed.

(* ===================================================================== *)
(** ** connect, on any stack *)
(* ===================================================================== *)

(** One turn of the [try] body, in full. *)
Lemma connect_try_shape B flag self t :
  Device.connect_try B flag (self, t) =
  match peripheral B (count is_open t) (Device.address self) with
  | Raise e => (Raise e, (self, t ++ [EvOpen (Device.address self)]))
  | Ret p =>
      if flag
      then (pin_answer B t self p,
            (Device.set_ble_device self (Some p),
             t ++ [EvOpen (Device.address self)] ++ pin_exchange self p))
      else (Ret tt,
            (Device.set_ble_device self (Some p),
             t ++ [EvOpen (Device.address self)]))
  end.
Proof.
  destruct (peripheral B (count is_open t) (Device.address self)) as [p|e] eqn:E.
  - destruct flag; [now apply connect_try_pin|].
    unfold Device.connect_try, Device.bind, Device.self_,
      Device.Peripheral_new, Device.call. cbn. now rewrite E.
  - unfold Device.connect_try, Device.bind, Device.self_,
      Device.Peripheral_new, Device.call. cbn. now rewrite E.
Qed.

Lemma connect_except_shape self t :
  Device.connect_except (self, t) =
  (Ret tt, (self, t ++ [EvLog ERROR "Unable connect to {}. Retrying in 100ms"
                          (Device.address self);
                        EvSleep Device.retry_delay])).
Proof.
  unfold Device.connect_except, Device.bind, Device.self_,
    Device.logger_error, Device.sleep, Device.emit. cbn [fst snd].
  now rewrite <- app_assoc.
Qed.

(** [connect], split at its guard. *)
Lemma connect_unfold B flag fuel self t :
  Device.connect B flag fuel (self, t) =
  if Device.is_connected self
  then Some (Ret tt,
             (self, t ++ [EvLog DEBUG "Trying connect to {}" (Device.address self);
                          EvLog DEBUG "Device already connected {}"
                                (Device.address self)]))
  else Device.connect_loop B flag fuel
         (self, t ++ [EvLog DEBUG "Trying connect to {}" (Device.address self)]).
Proof.
  unfold Device.connect. cbn [Device.logger_debug Device.emit fst snd].
  destruct (Device.is_connected self); [|reflexivity].
  unfold Device.logger_debug, Device.emit. cbn [fst snd].
  now rewrite <- app_assoc.
Qed.

Ltac count_norm :=
  repeat rewrite count_app in *; unfold pin_exchange, count in *;
  cbn [filter Datatypes.length is_open is_write is_sleep is_disconnect app] in *.

Ltac summary_split :=
  unfold loop_summary in *;
  repeat match goal with |- _ /\ _ => split end.

(** The cases in which the loop stops in the current turn. *)
Ltac summary_now Hs :=
  summary_split;
  [ count_norm; lia
  | count_norm; lia
  | let H := fresh in intros H; first [discriminate H | count_norm; lia]
  | count_norm; lia
  | let H := fresh in intros H; first [discriminate H | reflexivity]
  | discriminate
  | let s := fresh in let H := fresh in intros s H; left; now apply Hs ].

(** The cases in which the loop goes round once more. *)
Ltac summary_later Hs Hrun :=
  destruct Hrun as (?H1 & ?H2 & ?H3 & ?H4 & ?H5 & ?H6 & ?H7);
  summary_split;
  [ count_norm; lia
  | count_norm; lia
  | let H := fresh in intros H; first [discriminate H | specialize (H3 H); count_norm; lia]
  | count_norm; lia
  | assumption
  | assumption
  | let s := fresh in let Hin := fresh in
    intros s Hin; apply H7 in Hin as [Hin|Hin]; [|now right];
    apply in_app_or in Hin as [Hin|Hin]; [left; now apply Hs|];
    cbn in Hin; destruct Hin as [Hin|[Hin|[]]]; [discriminate|];
    right; congruence ].

Lemma connect_loop_summary B flag fuel : forall self t r self' t',
  Device.connect_loop B flag fuel (self, t) = Some (r, (self', t')) ->
  loop_summary flag t r self' t'.
Proof.
  induction fuel as [|fuel IH]; intros self t r self' t' Hrun; [discriminate|].
  cbn [Device.connect_loop] in Hrun. rewrite connect_try_shape in Hrun.
  destruct (peripheral B (count is_open t) (Device.address self)) as [p|e].
  - destruct flag.
    + assert (Hs : forall s, In (EvSleep s)
                (t ++ [EvOpen (Device.address self)] ++ pin_exchange self p) ->
                In (EvSleep s) t).
      { intros s Hin. apply in_app_or in Hin as [Hin|Hin]; [assumption|].
        cbn in Hin. intuition discriminate. }
      destruct (pin_answer B t self p) as [u|e].
      * inversion Hrun; subst. summary_now Hs.
      * destruct e; try (inversion Hrun; subst; summary_now Hs).
        rewrite connect_except_shape in Hrun. cbn [snd] in Hrun.
        apply IH in Hrun. summary_later Hs Hrun.
    + assert (Hs : forall s, In (EvSleep s) (t ++ [EvOpen (Device.address self)]) ->
                             In (EvSleep s) t).
      { intros s Hin. apply in_app_or in Hin as [Hin|Hin]; [assumption|].
        cbn in Hin. intuition discriminate. }
      inversion Hrun; subst. summary_now Hs.
  - assert (Hs : forall s, In (EvSleep s) (t ++ [EvOpen (Device.address self)]) ->
                           In (EvSleep s) t).
    { intros s Hin. apply in_app_or in Hin as [Hin|Hin]; [assumption|].
      cbn in Hin. intuition discriminate. }
    destruct e; try (inversion Hrun; subst; summary_now Hs).
    rewrite connect_except_shape in Hrun. cbn [snd] in Hrun.
    apply IH in Hrun. summary_later Hs Hrun.
Qed.

Lemma connect_summary B flag fuel self t r self' t' :
  Device.ble_device self = None ->
  Device.connect B flag fuel (self, t) = Some (r, (self', t')) ->
  loop_summary flag t r self' t'.
Proof.
  intros Hs Hrun. rewrite connect_unfold in Hrun.
  unfold Device.is_connected in Hrun. rewrite Hs in Hrun.
  apply connect_loop_summary in Hrun.
  assert (Hq : forall s, In (EvSleep s)
             (t ++ [EvLog DEBUG "Trying connect to {}" (Device.address self)]) ->
             In (EvSleep s) t).
  { intros s Hin. apply in_app_or in Hin as [Hin|Hin]; [assumption|].
    cbn in Hin. intuition discriminate. }
  destruct Hrun as (H1 & H2 & H3 & H4 & H5 & H6 & H7).
  summary_split; try assumption; try (count_norm; lia).
  - intros H. specialize (H3 H). count_norm. lia.
  - intros s Hin. apply H7 in Hin as [Hin|Hin]; [left; now apply Hq | now right].
Qed.

(** X1. Whatever the stack does, a [connect] that comes back never
    raises [BTLEDisconnectError], and when it returns normally the
    session holds a link. *)
Theorem connect_never_surfaces_disconnect
        (B : Stack) (flag : bool) (fuel : nat) (st st' : Device.state)
        (r : outcome unit) :
  Device.connect B flag fuel st = Some (r, st') ->
  r <> Raise BTLEDisconnectError /\
  (r = Ret tt -> Device.is_connected (fst st') = true).
Proof.
  destruct st as [self t], st' as [self' t']. intros Hrun.
  destruct (Device.ble_device self) as [p|] eqn:Hs.
  - rewrite connect_unfold in Hrun. unfold Device.is_connected in Hrun.
    rewrite Hs in Hrun. inversion Hrun; subst. split; [discriminate|].
    intros _. cbn [fst]. unfold Device.is_connected. now rewrite Hs.
  - destruct (connect_summary B flag fuel self t r self' t' Hs Hrun)
      as (_ & _ & _ & _ & H5 & H6 & _). now split.
Qed.

(** X1, on a device that drops the link at the first PIN write. *)
Lemma connect_never_surfaces_disconnect_witness :
  Ret tt <> Raise BTLEDisconnectError /\
  (Ret tt = Ret tt ->
   Device.is_connected
     (fst (Device.set_ble_device Sample.fresh_session (Some (Link 1)),
           [EvLog DEBUG "Trying connect to {}" Sample.valve_address;
            EvOpen Sample.valve_address;
            EvLog DEBUG "Write PIN to {}" Sample.valve_address;
            EvWrite (Link 0) Device.PIN_W Device.default_pin true;
            EvLog ERROR "Unable connect to {}. Retrying in 100ms" Sample.valve_address;
            EvSleep Device.retry_delay;
            EvOpen Sample.valve_address;
            EvLog DEBUG "Write PIN to {}" Sample.valve_address;
            EvWrite (Link 1) Device.PIN_W Device.default_pin true])) = true).
Proof.
  apply (connect_never_surfaces_disconnect Sample.dropping true 2
           (Sample.fresh_session, [])).
  reflexivity.
Defined.

(** X2. In every run of [connect] that comes back from a session without
    a link, each wait follows a failed attempt: the run opens exactly one
    link more than it waits, every wait lasts 100 ms, and it writes at
    most once per open. *)
Theorem connect_attempt_accounting
        (B : Stack) (flag : bool) (fuel : nat) (self self' : Device.eTRVDevice)
        (t t' : trace) (r : outcome unit) :
  Device.ble_device self = None ->
  Device.connect B flag fuel (self, t) = Some (r, (self', t')) ->
  (count is_open t' + count is_sleep t = S (count is_open t + count is_sleep t'))%nat /\
  (count is_write t' + count is_open t <= count is_write t + count is_open t')%nat /\
  (forall s, In (EvSleep s) t' -> In (EvSleep s) t \/ (s * 1000 == 100)%Q).
Proof.
  intros Hs Hrun.
  destruct (connect_summary B flag fuel self t r self' t' Hs Hrun)
    as (H1 & _ & _ & H4 & _ & _ & H7).
  split; [exact H1|]. split; [exact H4|].
  intros s Hin. apply H7 in Hin as [Hin| ->]; [now left | right; reflexivity].
Qed.

(** X2, on a stack whose first two opens are refused. *)
Lemma connect_attempt_accounting_witness :
  (count is_open
     ([] ++ [EvLog DEBUG "Trying connect to {}" Sample.valve_address]
         ++ retries 2 Sample.valve_address
         ++ [EvOpen Sample.valve_address]
         ++ pin_exchange Sample.fresh_session (Link 2))
   + count is_sleep [] =
   S (count is_open [] +
      count is_sleep
        ([] ++ [EvLog DEBUG "Trying connect to {}" Sample.valve_address]
            ++ retries 2 Sample.valve_address
            ++ [EvOpen Sample.valve_address]
            ++ pin_exchange Sample.fresh_session (Link 2))))%nat.
Proof.
  refine (proj1 (connect_attempt_accounting Sample.flaky true 3
                   Sample.fresh_session _ [] _ (Ret tt) _ _)).
  - reflexivity.
  - reflexivity.
Defined.

(** X3. [connect] never tears a link down: whatever the stack does and
    however many links the run opens, a run that comes back has made no
    call to [Peripheral.disconnect], so the links of failed attempts are
    left as they are. *)
Theorem connect_never_tears_down
        (B : Stack) (flag : bool) (fuel : nat) (st st' : Device.state)
        (r : outcome unit) :
  Device.connect B flag fuel st = Some (r, st') ->
  count is_disconnect (snd st') = count is_disconnect (snd st).
Proof.
  destruct st as [self t], st' as [self' t']. intros Hrun. cbn [snd].
  destruct (Device.ble_device self) as [p|] eqn:Hs.
  - rewrite connect_unfold in Hrun. unfold Device.is_connected in Hrun.
    rewrite Hs in Hrun. inversion Hrun; subst. count_norm. lia.
  - now destruct (connect_summary B flag fuel self t r self' t' Hs Hrun)
      as (_ & H2 & _).
Qed.

(** X3, on a device that drops the link at the first PIN write: two
    links are opened and none is closed. *)
Lemma connect_never_tears_down_witness :
  count is_disconnect
    (snd (Device.set_ble_device Sample.fresh_session (Some (Link 1)),
          [EvLog DEBUG "Trying connect to {}" Sample.valve_address;
           EvOpen Sample.valve_address;
           EvLog DEBUG "Write PIN to {}" Sample.valve_address;
           EvWrite (Link 0) Device.PIN_W Device.default_pin true;
           EvLog ERROR "Unable connect to {}. Retrying in 100ms" Sample.valve_address;
           EvSleep Device.retry_delay;
           EvOpen Sample.valve_address;
           EvLog DEBUG "Write PIN to {}" Sample.valve_address;
           EvWrite (Link 1) Device.PIN_W Device.default_pin true]))
  = count is_disconnect (snd (Sample.fresh_session, @nil event)).
Proof.
  apply (connect_never_tears_down Sample.dropping true 2
           (Sample.fresh_session, []) _ (Ret tt)).
  reflexivity.
Defined.

(** X4. [connect(send_pin=False)] writes to no characteristic, whatever
    the stack does and whether it returns or raises. *)
Theorem connect_without_pin_never_writes
        (B : Stack) (fuel : nat) (st st' : Device.state) (r : outcome unit) :
  Device.connect B false fuel st = Some (r, st') ->
  count is_write (snd st') = count is_write (snd st).
Proof.
  destruct st as [self t], st' as [self' t']. intros Hrun. cbn [snd].
  destruct (Device.ble_device self) as [p|] eqn:Hs.
  - rewrite connect_unfold in Hrun. unfold Device.is_connected in Hrun.
    rewrite Hs in Hrun. inversion Hrun; subst. count_norm. lia.
  - destruct (connect_summary B false fuel self t r self' t' Hs Hrun)
      as (_ & _ & H3 & _). now apply H3.
Qed.

(** X4, on a device that would refuse any write. *)
Lemma connect_without_pin_never_writes_witness :
  count is_write
    (snd (Device.set_ble_device Sample.fresh_session (Some (Link 0)),
          [EvLog DEBUG "Trying connect to {}" Sample.valve_address;
           EvOpen Sample.valve_address]))
  = count is_write (snd (Sample.fresh_session, @nil event)).
Proof.
  apply (connect_without_pin_never_writes Sample.refusing 1
           (Sample.fresh_session, []) _ (Ret tt)).
  reflexivity.
Defined.

(** X5. A link open that fails with anything but [BTLEDisconnectError]
    ends [connect] at once, after the [n] refused opens that came before:
    the error reaches the caller, the session is left exactly as it was,
    without a link, and no PIN is written even when one was asked for. *)
Theorem connect_open_error_propagates
        (B : Stack) (self : Device.eTRVDevice) (t : trace) (flag : bool)
        (n fuel : nat) (e : exn) :
  Device.ble_device self = None ->
  (forall k, (k < n)%nat ->
     peripheral B (count is_open t + k) (Device.address self)
       = Raise BTLEDisconnectError) ->
  peripheral B (count is_open t + n) (Device.address self) = Raise e ->
  e <> BTLEDisconnectError ->
  let addr := Device.address self in
  let t' := t ++ [EvLog DEBUG "Trying connect to {}" addr]
              ++ retries n addr ++ [EvOpen addr] in
  Device.connect B flag (n + S fuel) (self, t) = Some (Raise e, (self, t')) /\
  count is_write t' = count is_write t.
Proof.
  intros Hs Hfail He Hne addr t'. subst addr t'. split.
  - rewrite connect_unfold. unfold Device.is_connected. rewrite Hs.
    rewrite connect_loop_skip.
    + cbn [Device.connect_loop]. rewrite connect_try_shape.
      rewrite !count_app, count_retries_open.
      change (count is_open [EvLog DEBUG "Trying connect to {}"
                               (Device.address self)]) with 0%nat.
      rewrite Nat.add_0_r, He. rewrite <- !app_assoc.
      destruct e; try reflexivity. congruence.
    + intros k Hk. rewrite count_app.
      change (count is_open [EvLog DEBUG "Trying connect to {}"
                               (Device.address self)]) with 0%nat.
      rewrite Nat.add_0_r. now apply Hfail.
  - rewrite !count_app, count_retries_write. unfold count. cbn. lia.
Qed.

(** X5, on a stack that lacks the privileges to open a link. *)
Lemma connect_open_error_propagates_witness :
  Device.connect Fixtures.unprivileged true (0 + 1) (Sample.fresh_session, []) =
    Some (Raise BTLEManagementError,
          (Sample.fresh_session,
           [] ++ [EvLog DEBUG "Trying connect to {}" Sample.valve_address]
              ++ retries 0 Sample.valve_address
              ++ [EvOpen Sample.valve_address])).
Proof.
  refine (proj1 (connect_open_error_propagates Fixtures.unprivileged
                   Sample.fresh_session [] true 0 0 BTLEManagementError
                   _ _ _ _)).
  - reflexivity.
  - intros k Hk. lia.
  - reflexivity.
  - discriminate.
Defined.

(** X6. The retry loop has no bound: on a stack that refuses every open
    with a disconnect error, [connect] has not come back at the end of
    any fuel, for either value of [send_pin]. *)
Theorem connect_retries_forever
        (B : Stack) (self : Device.eTRVDevice) (t : trace) (flag : bool) :
  Device.ble_device self = None ->
  (forall k, peripheral B k (Device.address self) = Raise BTLEDisconnectError) ->
  forall fuel, Device.connect B flag fuel (self, t) = None.
Proof.
  intros Hs Hall fuel. rewrite connect_unfold.
  unfold Device.is_connected. rewrite Hs.
  rewrite <- (Nat.add_0_r fuel), connect_loop_skip by (intros; apply Hall).
  reflexivity.
Qed.

(** X6, on an unreachable device. *)
Lemma connect_retries_forever_witness :
  Device.connect Fixtures.unreachable true 50 (Sample.fresh_session, []) = None.
Proof.
  apply (connect_retries_forever Fixtures.unreachable Sample.fresh_session []
           true).
  - reflexivity.
  - intros k. reflexivity.
Defined.

Lemma send_pin_linked B self t p :
  Device.ble_device self = Some p ->
  Device.send_pin B (self, t) =
  (pin_answer B t self p, (self, t ++ pin_exchange self p)).
Proof.
  intros Hs. unfold Device.send_pin, Device.bind, Device.self_,
    Device.logger_debug, Device.emit. cbn [fst snd]. rewrite Hs.
  unfold Device.Peripheral_write, Device.call, pin_answer, pin_exchange.
  cbn [fst snd]. rewrite count_app.
  change (count is_write [EvLog DEBUG "Write PIN to {}" (Device.address self)])
    with 0%nat.
  now rewrite Nat.add_0_r, <- app_assoc.
Qed.

Lemma send_pin_unlinked B self t :
  Device.ble_device self = None ->
  Device.send_pin B (self, t) =
  (Raise AttributeError,
   (self, t ++ [EvLog DEBUG "Write PIN to {}" (Device.address self)])).
Proof.
  intros Hs. unfold Device.send_pin, Device.bind, Device.self_,
    Device.logger_debug, Device.emit. cbn [fst snd]. now rewrite Hs.
Qed.

(** X7. When the device does not drop the link at the PIN write,
    [connect(send_pin=False)] followed by [send_pin()] leaves the same
    object and the same trace as [connect(send_pin=True)]. *)
Theorem connect_then_send_pin
        (B : Stack) (self : Device.eTRVDevice) (t : trace)
        (n fuel : nat) (p : Peripheral) :
  Device.ble_device self = None ->
  opens_after B t (Device.address self) n p ->
  pin_answer B t self p <> Raise BTLEDisconnectError ->
  (n < fuel)%nat ->
  call_methods B [CallConnect false fuel; CallSendPin] (self, t) =
  call_method B (CallConnect true fuel) (self, t).
Proof.
  intros Hs Ho Hp Hf.
  assert (Ho' : opens_after B
            (t ++ [EvLog DEBUG "Trying connect to {}" (Device.address self)])
            (Device.address self) n p) by (now apply opens_after_log).
  set (t1 := (t ++ [EvLog DEBUG "Trying connect to {}" (Device.address self)])
               ++ retries n (Device.address self)).
  assert (Hopen : peripheral B (count is_open t1) (Device.address self) = Ret p).
  { unfold t1. rewrite count_app, count_retries_open. apply Ho'. }
  assert (Hans : pin_answer B t1 self p = pin_answer B t self p).
  { unfold t1. rewrite pin_answer_after by apply count_retries_write.
    now rewrite pin_answer_after by reflexivity. }
  cbn [call_methods call_method]. rewrite !connect_unfold.
  unfold Device.is_connected. rewrite Hs.
  replace fuel with (n + S (fuel - n - 1))%nat by lia.
  rewrite !(connect_loop_reaches B self _ _ n p) by assumption.
  fold t1. rewrite connect_loop_linked_nopin with (p := p) by exact Hopen.
  rewrite send_pin_linked with (p := p) by reflexivity. cbn [snd].
  cbn [Device.connect_loop]. rewrite connect_try_pin with (p := p) by exact Hopen.
  rewrite Hans.
  replace (pin_exchange (Device.set_ble_device self (Some p)) p)
    with (pin_exchange self p) by reflexivity.
  rewrite <- app_assoc.
  destruct (pin_answer B t self p) as [u|e]; [reflexivity|].
  destruct e; try reflexivity. congruence.
Qed.

(** X7, on a stack whose first two opens are refused. *)
Lemma connect_then_send_pin_witness :
  call_methods Sample.flaky [CallConnect false 3; CallSendPin]
    (Sample.fresh_session, []) =
  call_method Sample.flaky (CallConnect true 3) (Sample.fresh_session, []).
Proof.
  apply (connect_then_send_pin Sample.flaky Sample.fresh_session [] 2 3 (Link 2)).
  - reflexivity.
  - split; [intros k Hk; cbn; destruct k as [|[|k]]; [reflexivity|reflexivity|lia]
           | reflexivity].
  - discriminate.
  - lia.
Defined.

(** X8. [send_pin] on a session that holds no link raises
    [AttributeError] after its log line and makes no call to the stack;
    this is the case right after a [disconnect] that returned. *)
Theorem send_pin_needs_a_link
        (B : Stack) (self : Device.eTRVDevice) (t : trace) :
  (forall p, Device.ble_device self = Some p ->
             Btle.disconnect B (count is_disconnect t) p = Ret tt) ->
  let st := snd (Device.disconnect B (self, t)) in
  fst (Device.send_pin B st) = Raise AttributeError /\
  fst (snd (Device.send_pin B st)) = fst st /\
  effects (snd (snd (Device.send_pin B st))) = effects (snd st) /\
  count is_write (snd (snd (Device.send_pin B st))) = count is_write t.
Proof.
  intros Hd st. subst st.
  destruct (Device.ble_device self) as [p|] eqn:Hs.
  - rewrite (disconnect_linked B self t p Hs), (Hd p eq_refl). cbn [fst snd].
    rewrite send_pin_unlinked by reflexivity. cbn [fst snd].
    rewrite !effects_app. cbn. rewrite !app_nil_r.
    repeat split. count_norm. lia.
  - rewrite (disconnect_unlinked B self t Hs). cbn [fst snd].
    rewrite send_pin_unlinked by exact Hs. cbn [fst snd].
    rewrite !effects_app. cbn. rewrite !app_nil_r.
    repeat split. count_norm. lia.
Qed.

(** X8, on a session that was linked and is disconnected. *)
Lemma send_pin_needs_a_link_witness :
  fst (Device.send_pin Sample.steady
         (snd (Device.disconnect Sample.steady (Sample.linked_session, []))))
  = Raise AttributeError.
Proof.
  refine (proj1 (send_pin_needs_a_link Sample.steady Sample.linked_session [] _)).
  intros p _. reflexivity.
Defined.

(** X9. When the stack's own teardown raises, [disconnect] lets the
    exception through and keeps the link object: the session still
    reports itself connected, and a [connect] made next opens nothing. *)
Theorem disconnect_failure_keeps_link
        (B : Stack) (self : Device.eTRVDevice) (t : trace) (p : Peripheral)
        (e : exn) (flag : bool) (fuel : nat) :
  Device.ble_device self = Some p ->
  Btle.disconnect B (count is_disconnect t) p = Raise e ->
  let t' := t ++ [EvLogPlain DEBUG "Disconnecting"; EvDisconnect p] in
  Device.disconnect B (self, t) = (Raise e, (self, t')) /\
  Device.is_connected self = true /\
  exists t'', Device.connect B flag fuel (self, t') = Some (Ret tt, (self, t'')) /\
              effects t'' = effects t'.
Proof.
  intros Hs He t'. split; [|split].
  - now rewrite (disconnect_linked B self t p Hs), He.
  - unfold Device.is_connected. now rewrite Hs.
  - eexists. rewrite connect_unfold. unfold Device.is_connected. rewrite Hs.
    split; [reflexivity|]. rewrite effects_app. cbn. apply app_nil_r.
Qed.

(** X9, on a stack whose teardown fails. *)
Lemma disconnect_failure_keeps_link_witness :
  Device.disconnect Fixtures.stuck (Sample.linked_session, []) =
    (Raise BTLEInternalError,
     (Sample.linked_session,
      [] ++ [EvLogPlain DEBUG "Disconnecting"; EvDisconnect (Link 7)])).
Proof.
  refine (proj1 (disconnect_failure_keeps_link Fixtures.stuck
                   Sample.linked_session [] (Link 7) BTLEInternalError
                   true 0 _ _)).
  - reflexivity.
  - reflexivity.
Defined.

Lemma set_ble_device_back self self' :
  Device.ble_device self = None ->
  same_identity self' self ->
  Device.set_ble_device self' None = self.
Proof.
  destruct self, self'. unfold same_identity. cbn.
  intros -> (-> & -> & ->). reflexivity.
Qed.

Lemma connect_loop_identity B flag fuel : forall self t r self' t',
  Device.connect_loop B flag fuel (self, t) = Some (r, (self', t')) ->
  same_identity self' self.
Proof.
  induction fuel as [|fuel IH]; intros self t r self' t' Hrun; [discriminate|].
  cbn [Device.connect_loop] in Hrun. rewrite connect_try_shape in Hrun.
  assert (Hrefl : forall x, same_identity x x) by (intros x; now repeat split).
  assert (Hset : forall p, same_identity (Device.set_ble_device self (Some p)) self)
    by (intros p; now repeat split).
  destruct (peripheral B (count is_open t) (Device.address self)) as [p|e].
  - destruct flag.
    + destruct (pin_answer B t self p) as [u|e].
      * inversion Hrun; subst. apply Hset.
      * destruct e; try (inversion Hrun; subst; apply Hset).
        rewrite connect_except_shape in Hrun. cbn [snd] in Hrun.
        apply IH in Hrun. exact Hrun.
    + inversion Hrun; subst. apply Hset.
  - destruct e; try (inversion Hrun; subst; apply Hrefl).
    rewrite connect_except_shape in Hrun. cbn [snd] in Hrun.
    now apply IH in Hrun.
Qed.

(** X10. A [connect] that returns normally from a session without a
    link, followed by a [disconnect] whose teardown returns, gives back
    the very object the session was before: same address, secret and
    PIN, and no link; the stack has seen one teardown, of the link that
    [connect] left in the session. *)
Theorem connect_disconnect_restores
        (B : Stack) (self : Device.eTRVDevice) (t : trace) (flag : bool)
        (fuel : nat) (st : Device.state) :
  Device.ble_device self = None ->
  Device.connect B flag fuel (self, t) = Some (Ret tt, st) ->
  (forall p, Btle.disconnect B (count is_disconnect (snd st)) p = Ret tt) ->
  exists p,
    Device.ble_device (fst st) = Some p /\
    Device.disconnect B st =
      (Ret tt,
       (self, snd st ++ [EvLogPlain DEBUG "Disconnecting"; EvDisconnect p])).
Proof.
  intros Hs Hrun Hd. destruct st as [self' t']. cbn [fst snd] in *.
  pose proof Hrun as Hrun'.
  rewrite connect_unfold in Hrun. unfold Device.is_connected in Hrun.
  rewrite Hs in Hrun.
  pose proof (connect_loop_identity _ _ _ _ _ _ _ _ Hrun) as Hid.
  apply connect_loop_summary in Hrun.
  destruct Hrun as (_ & _ & _ & _ & H5 & _).
  specialize (H5 eq_refl). unfold Device.is_connected in H5.
  destruct (Device.ble_device self') as [p|] eqn:Hp; [|discriminate].
  exists p. split; [reflexivity|].
  rewrite (disconnect_linked B self' t' p Hp), (Hd p).
  now rewrite (set_ble_device_back self self' Hs Hid).
Qed.

(** X10, on a stack whose first two opens are refused. *)
Lemma connect_disconnect_restores_witness :
  exists p,
    Device.ble_device
      (fst (Device.set_ble_device Sample.fresh_session (Some (Link 2)),
            [] ++ [EvLog DEBUG "Trying connect to {}" Sample.valve_address]
               ++ retries 2 Sample.valve_address
               ++ [EvOpen Sample.valve_address]
               ++ pin_exchange Sample.fresh_session (Link 2))) = Some p /\
    Device.disconnect Sample.flaky
      (Device.set_ble_device Sample.fresh_session (Some (Link 2)),
       [] ++ [EvLog DEBUG "Trying connect to {}" Sample.valve_address]
          ++ retries 2 Sample.valve_address
          ++ [EvOpen Sample.valve_address]
          ++ pin_exchange Sample.fresh_session (Link 2)) =
      (Ret tt,
       (Sample.fresh_session,
        snd (Device.set_ble_device Sample.fresh_session (Some (Link 2)),
             [] ++ [EvLog DEBUG "Trying connect to {}" Sample.valve_address]
                ++ retries 2 Sample.valve_address
                ++ [EvOpen Sample.valve_address]
                ++ pin_exchange Sample.fresh_session (Link 2))
          ++ [EvLogPlain DEBUG "Disconnecting"; EvDisconnect p])).
Proof.
  apply (connect_disconnect_restores Sample.flaky Sample.fresh_session []
           true 3).
  - reflexivity.
  - reflexivity.
  - intros p. reflexivity.
Defined.

(** X21. [connect] is idempotent once it has succeeded: after a
    [connect] that returned normally, whatever the stack did, any
    further [connect] returns normally, leaves the object as it is and
    makes no call to the stack. *)
Theorem connect_twice
        (B : Stack) (flag flag' : bool) (fuel fuel' : nat)
        (st st1 : Device.state) :
  Device.connect B flag fuel st = Some (Ret tt, st1) ->
  exists t'',
    Device.connect B flag' fuel' st1 = Some (Ret tt, (fst st1, t'')) /\
    effects t'' = effects (snd st1).
Proof.
  intros Hrun.
  assert (Hc : Device.is_connected (fst st1) = true).
  { destruct st as [self t], st1 as [self1 t1]. cbn [fst].
    destruct (Device.ble_device self) as [p|] eqn:Hs.
    - rewrite connect_unfold in Hrun. unfold Device.is_connected in Hrun.
      rewrite Hs in Hrun. inversion Hrun; subst.
      unfold Device.is_connected. now rewrite Hs.
    - destruct (connect_summary B flag fuel self t _ self1 t1 Hs Hrun)
        as (_ & _ & _ & _ & H5 & _). now apply H5. }
  destruct st1 as [self1 t1]. cbn [fst snd] in *.
  eexists. rewrite connect_unfold, Hc. split; [reflexivity|].
  rewrite effects_app. cbn. apply app_nil_r.
Qed.

(** X21, on a stack whose first two opens are refused. *)
Lemma connect_twice_witness :
  exists t'',
    Device.connect Sample.flaky false 0
      (Device.set_ble_device Sample.fresh_session (Some (Link 2)),
       [] ++ [EvLog DEBUG "Trying connect to {}" Sample.valve_address]
          ++ retries 2 Sample.valve_address
          ++ [EvOpen Sample.valve_address]
          ++ pin_exchange Sample.fresh_session (Link 2)) =
      Some (Ret tt,
            (fst (Device.set_ble_device Sample.fresh_session (Some (Link 2)),
                  [] ++ [EvLog DEBUG "Trying connect to {}" Sample.valve_address]
                     ++ retries 2 Sample.valve_address
                     ++ [EvOpen Sample.valve_address]
                     ++ pin_exchange Sample.fresh_session (Link 2)), t'')) /\
    effects t'' =
      effects (snd (Device.set_ble_device Sample.fresh_session (Some (Link 2)),
                    [] ++ [EvLog DEBUG "Trying connect to {}" Sample.valve_address]
                       ++ retries 2 Sample.valve_address
                       ++ [EvOpen Sample.valve_address]
                       ++ pin_exchange Sample.fresh_session (Link 2))).
Proof.
  apply (connect_twice Sample.flaky true false 3 0 (Sample.fresh_session, [])).
  reflexivity.
Defined.

(* ===================================================================== *)
(** ** More on the temperature codec *)
(* ===================================================================== *)

Lemma inject_Z_lt_succ a b : (inject_Z a < inject_Z b + 1)%Q -> a <= b.
Proof.
  intros H. change 1%Q with (inject_Z 1) in H.
  rewrite <- inject_Z_plus, <- Zlt_Qlt in H. lia.
Qed.

Lemma truncation_of_sign x a :
  truncation_of x a -> ((0 <= x)%Q -> 0 <= a) /\ ((x <= 0)%Q -> a <= 0).
Proof.
  intros [H1 H2]. split; intros H.
  - destruct (H1 H) as [Ha Hb]. apply inject_Z_lt_succ.
    change (inject_Z 0) with 0%Q. lra.
  - destruct (H2 H) as [Ha Hb].
    assert (H' : (inject_Z a < inject_Z 0 + 1)%Q)
      by (change (inject_Z 0) with 0%Q; lra).
    now apply inject_Z_lt_succ in H'.
Qed.

Lemma truncation_of_mono x y a b :
  (x <= y)%Q -> truncation_of x a -> truncation_of y b -> a <= b.
Proof.
  intros Hxy Hx Hy.
  pose proof (truncation_of_sign x a Hx) as [Sx1 Sx2].
  pose proof (truncation_of_sign y b Hy) as [Sy1 Sy2].
  destruct Hx as [Hx1 Hx2], Hy as [Hy1 Hy2].
  destruct (Qlt_le_dec x 0) as [Hx|Hx]; destruct (Qlt_le_dec y 0) as [Hy|Hy].
  - destruct (Hx2 ltac:(lra)) as [A1 A2]. destruct (Hy2 ltac:(lra)) as [B1 B2].
    apply inject_Z_lt_succ. lra.
  - assert (a <= 0) by (apply Sx2; lra). assert (0 <= b) by (apply Sy1; lra). lia.
  - lra.
  - destruct (Hx1 ltac:(lra)) as [A1 A2]. destruct (Hy1 ltac:(lra)) as [B1 B2].
    apply inject_Z_lt_succ. lra.
Qed.

Lemma setter_success fresh v st :
  Codec.set_point_temperature_setter fresh v = Ret st ->
  exists x, value_of v = Some x /\
            truncation_of (x * 2) (DataStruct.set_point_temperature st) /\
            DataStruct.room_temperature st = DataStruct.room_temperature fresh.
Proof.
  unfold Codec.set_point_temperature_setter. intros H.
  destruct v as [z | [q | s | ]]; cbn [mul2 Py.int obind] in H.
  - inversion H; subst. exists (inject_Z z). cbn.
    split; [reflexivity|]. split; [apply truncation_of_double_int | reflexivity].
  - unfold float_double in H. cbv zeta in H.
    destruct (Qle_bool (inject_Z float_limit) (Qabs (q * 2)));
      cbn [Py.int obind] in H; [discriminate|].
    inversion H; subst. exists q. cbn [value_of DataStruct.set_point_temperature DataStruct.room_temperature].
    split; [reflexivity|]. split; [apply truncation_of_quot | reflexivity].
  - discriminate.
  - discriminate.
Qed.

Lemma setter_failure fresh v :
  ~ doubles_finitely v ->
  Codec.set_point_temperature_setter fresh v =
    Raise (match v with Float NaN => ValueError | _ => OverflowError end).
Proof.
  unfold Codec.set_point_temperature_setter. intros H.
  destruct v as [z | [q | s | ]]; cbn [doubles_finitely] in H.
  - now destruct H.
  - cbn [mul2]. unfold float_double. cbv zeta.
    apply Qnot_lt_le, Qle_bool_iff in H. rewrite H. reflexivity.
  - reflexivity.
  - reflexivity.
Qed.

Lemma exact_of_bound x a :
  truncation_of x a -> (Qabs x < inject_Z (2 ^ 53))%Q -> exact_int a.
Proof.
  intros Ht Hb. pose proof (truncation_of_sign x a Ht) as [S1 S2].
  destruct Ht as [H1 H2]. apply Qabs_Qlt_condition in Hb as [Hb1 Hb2].
  unfold exact_int.
  destruct (Qlt_le_dec x 0) as [Hx|Hx].
  - destruct (H2 ltac:(lra)) as [A1 A2]. assert (a <= 0) by (apply S2; lra).
    assert (H' : (inject_Z (- 2 ^ 53) < inject_Z a)%Q).
    { rewrite inject_Z_opp. lra. }
    rewrite <- Zlt_Qlt in H'. lia.
  - destruct (H1 Hx) as [A1 A2]. assert (0 <= a) by (apply S1; lra).
    assert (H' : (inject_Z a < inject_Z (2 ^ 53))%Q) by lra.
    rewrite <- Zlt_Qlt in H'. lia.
Qed.


(** X11. Outside the range in which [value * 2] is a finite number the
    setter stores nothing: it raises [ValueError] on NaN and
    [OverflowError] on an infinity and on a float whose double
    overflows. *)
Theorem setter_raises_outside_range
        (fresh : DataStruct.TemperatureStruct) (v : number) :
  ~ doubles_finitely v ->
  Codec.set_point_temperature_setter fresh v =
    Raise (match v with Float NaN => ValueError | _ => OverflowError end).
Proof. apply setter_failure. Qed.

(** X11, at the largest power of two that binary64 holds. *)
Lemma setter_raises_outside_range_witness :
  Codec.set_point_temperature_setter Sample.blank_temperature
    (Float (Finite (inject_Z (2 ^ 1023)))) = Raise OverflowError.
Proof.
  apply (setter_raises_outside_range Sample.blank_temperature
           (Float (Finite (inject_Z (2 ^ 1023))))).
  cbn [doubles_finitely]. apply Qle_not_lt. vm_compute. discriminate.
Defined.

(** X12. For every number [v] whose double is below 2^53 in magnitude,
    the setter stores a raw value whose read conversion is a float [f]
    that is never larger than [v] in magnitude and lies less than half a
    degree from it. *)
Theorem read_back_within_half_degree
        (fresh : DataStruct.TemperatureStruct) (v : number) (x : Q) :
  value_of v = Some x ->
  (Qabs (x * 2) < inject_Z (2 ^ 53))%Q ->
  exists st f,
    Codec.set_point_temperature_setter fresh v = Ret st /\
    mul_half (DataStruct.set_point_temperature st) = Ret (Finite f) /\
    (Qabs f <= Qabs x)%Q /\ (Qabs (x - f) < 1 # 2)%Q.
Proof.
  intros Hv Hb.
  assert (Hfin : doubles_finitely v).
  { destruct v as [z | [q | s | ]]; cbn in Hv |- *; try discriminate; auto.
    inversion Hv; subst. eapply Qlt_trans; [exact Hb|].
    rewrite <- Zlt_Qlt. apply float_limit_large. }
  assert (E : exists st, Codec.set_point_temperature_setter fresh v = Ret st).
  { unfold Codec.set_point_temperature_setter.
    destruct v as [z | [q | s | ]]; cbn in Hfin; try contradiction.
    - eexists. reflexivity.
    - cbn [mul2]. rewrite (float_double_finite q Hfin). eexists. reflexivity. }
  destruct E as [st E].
  destruct (setter_success fresh v st E) as (x' & Hx' & Ht & _).
  rewrite Hv in Hx'. inversion Hx'; subst x'.
  pose proof (exact_of_bound _ _ Ht Hb) as Hex.
  exists st, (inject_Z (DataStruct.set_point_temperature st) * (1 # 2))%Q.
  split; [exact E|]. split; [now apply mul_half_exact|].
  pose proof (truncation_of_sign _ _ Ht) as [S1 S2].
  destruct Ht as [H1 H2].
  set (a := DataStruct.set_point_temperature st) in *.
  destruct (Qlt_le_dec x 0) as [Hx|Hx].
  - destruct (H2 ltac:(lra)) as [A1 A2]. assert (Ha : a <= 0) by (apply S2; lra).
    rewrite Zle_Qle in Ha. change (inject_Z 0) with 0%Q in Ha.
    split.
    + rewrite (Qabs_neg x) by lra. rewrite Qabs_neg by lra. lra.
    + apply Qabs_Qlt_condition. split; lra.
  - destruct (H1 ltac:(lra)) as [A1 A2]. assert (Ha : 0 <= a) by (apply S1; lra).
    rewrite Zle_Qle in Ha. change (inject_Z 0) with 0%Q in Ha.
    split.
    + rewrite (Qabs_pos x) by lra. rewrite Qabs_pos by lra. lra.
    + apply Qabs_Qlt_condition. split; lra.
Qed.

(** X12, at the float [21.3]: 42 is stored and 21.0 is read back. *)
Lemma read_back_within_half_degree_witness :
  exists st f,
    Codec.set_point_temperature_setter Sample.blank_temperature
      (Float (Finite float_21_3)) = Ret st /\
    mul_half (DataStruct.set_point_temperature st) = Ret (Finite f) /\
    (Qabs f <= Qabs float_21_3)%Q /\ (Qabs (float_21_3 - f) < 1 # 2)%Q.
Proof.
  apply (read_back_within_half_degree Sample.blank_temperature
           (Float (Finite float_21_3)) float_21_3).
  - reflexivity.
  - vm_compute. reflexivity.
Defined.

(** X13. The setter treats a value and its opposite alike: when it
    stores [raw] for [v] it stores [- raw] for [- v]. *)
Theorem setter_is_odd
        (fresh : DataStruct.TemperatureStruct) (v : number)
        (st : DataStruct.TemperatureStruct) :
  Codec.set_point_temperature_setter fresh v = Ret st ->
  Codec.set_point_temperature_setter fresh (negate v) =
    Ret {| DataStruct.set_point_temperature :=
             - DataStruct.set_point_temperature st;
           DataStruct.room_temperature := DataStruct.room_temperature st |}.
Proof.
  unfold Codec.set_point_temperature_setter. intros H.
  destruct v as [z | [q | s | ]]; cbn [negate mul2 Py.int obind] in *;
    try discriminate.
  - inversion H; subst. cbn [DataStruct.set_point_temperature
                              DataStruct.room_temperature].
    do 2 f_equal. lia.
  - assert (Hb : Qle_bool (inject_Z float_limit) (Qabs (- q * 2)) =
                 Qle_bool (inject_Z float_limit) (Qabs (q * 2))).
    { destruct q as [a d]. unfold Qle_bool, Qabs, Qmult, Qopp.
      cbn [Qnum Qden inject_Z]. now rewrite Z.mul_opp_l, Z.abs_opp. }
    unfold float_double in *. cbv zeta in *. rewrite Hb.
    destruct (Qle_bool (inject_Z float_limit) (Qabs (q * 2)));
      cbn [Py.int obind] in *; [discriminate|].
    inversion H; subst. cbn [DataStruct.set_point_temperature
                              DataStruct.room_temperature].
    do 2 f_equal. destruct q as [a d]. cbn [Qnum Qden Qmult Qopp].
    rewrite Z.mul_opp_l. apply Z.quot_opp_l. lia.
Qed.

(** X13, at the float [21.3]: 42 for it, -42 for its opposite. *)
Lemma setter_is_odd_witness :
  Codec.set_point_temperature_setter Sample.blank_temperature
    (negate (Float (Finite float_21_3))) =
    Ret {| DataStruct.set_point_temperature := - 42;
           DataStruct.room_temperature := 0 |}.
Proof.
  apply (setter_is_odd Sample.blank_temperature (Float (Finite float_21_3))
           {| DataStruct.set_point_temperature := 42;
              DataStruct.room_temperature := 0 |}).
  reflexivity.
Defined.

(** X14. The setter is monotone: of two values it accepts, the larger
    never stores the smaller raw value. *)
Theorem setter_is_monotone
        (fresh : DataStruct.TemperatureStruct) (v w : number) (x y : Q)
        (sv sw : DataStruct.TemperatureStruct) :
  value_of v = Some x -> value_of w = Some y -> (x <= y)%Q ->
  Codec.set_point_temperature_setter fresh v = Ret sv ->
  Codec.set_point_temperature_setter fresh w = Ret sw ->
  DataStruct.set_point_temperature sv <= DataStruct.set_point_temperature sw.
Proof.
  intros Hv Hw Hxy Ev Ew.
  destruct (setter_success fresh v sv Ev) as (x' & Hx' & Hx & _).
  destruct (setter_success fresh w sw Ew) as (y' & Hy' & Hy & _).
  rewrite Hv in Hx'. rewrite Hw in Hy'. inversion Hx'; inversion Hy'; subst.
  eapply truncation_of_mono; [|exact Hx|exact Hy]. lra.
Qed.

(** X14, at 21 (an [int]) and 21.5 (a [float]). *)
Lemma setter_is_monotone_witness :
  DataStruct.set_point_temperature
    {| DataStruct.set_point_temperature := 42;
       DataStruct.room_temperature := 0 |} <=
  DataStruct.set_point_temperature
    {| DataStruct.set_point_temperature := 43;
       DataStruct.room_temperature := 0 |}.
Proof.
  apply (setter_is_monotone Sample.blank_temperature (Int 21)
           (Float (Finite (43 # 2))) (inject_Z 21) (43 # 2)).
  - reflexivity.
  - reflexivity.
  - vm_compute. discriminate.
  - reflexivity.
  - reflexivity.
Defined.

(** X15. Reading a set point and writing it back changes nothing: for
    every raw value that converts exactly, the setter applied to the
    float that the read conversion gives stores that same raw value. *)
Theorem write_back_is_stable
        (fresh : DataStruct.TemperatureStruct) (raw : Z) :
  exact_int raw ->
  exists f,
    mul_half raw = Ret f /\
    Codec.set_point_temperature_setter fresh (Float f) =
      Ret {| DataStruct.set_point_temperature := raw;
             DataStruct.room_temperature := DataStruct.room_temperature fresh |}.
Proof.
  intros Hex. exists (Finite (inject_Z raw * (1 # 2))).
  split; [now apply mul_half_exact|].
  assert (Hk : (inject_Z raw * (1 # 2) == raw # 2)%Q).
  { unfold Qeq. cbn. lia. }
  apply setter_on_half_step; [exact Hk|].
  rewrite Hk. pose proof float_limit_large as HL.
  unfold exact_int in Hex. apply Qabs_Qlt_condition. unfold Qlt.
  cbn [Qnum Qden Qmult Qopp inject_Z]. split; lia.
Qed.

(** X15, at raw 43. *)
Lemma write_back_is_stable_witness :
  exists f,
    mul_half 43 = Ret f /\
    Codec.set_point_temperature_setter Sample.blank_temperature (Float f) =
      Ret {| DataStruct.set_point_temperature := 43;
             DataStruct.room_temperature :=
               DataStruct.room_temperature Sample.blank_temperature |}.
Proof.
  apply (write_back_is_stable Sample.blank_temperature 43).
  vm_compute. reflexivity.
Defined.

(* ===================================================================== *)
(** ** The readers of raw bytes *)
(* ===================================================================== *)

Lemma unhex_pair_hex_byte b :
  exists hi lo, Raw.hex_byte b = [hi; lo] /\ unhex_pair hi lo = Some b /\
                In hi Raw.hexdigits /\ In lo Raw.hexdigits.
Proof.
  destruct b; do 2 eexists; (split; [reflexivity|]); (split; [vm_compute; reflexivity|]);
    split; vm_compute; tauto.
Qed.

Lemma unhex_list_hex data :
  unhex_list (flat_map Raw.hex_byte data) = Some data.
Proof.
  induction data as [|b data IH]; [reflexivity|].
  cbn [flat_map]. destruct (unhex_pair_hex_byte b) as (hi & lo & -> & E & _).
  cbn [app unhex_list]. now rewrite E, IH.
Qed.

Lemma hex_length data :
  List.length (flat_map Raw.hex_byte data) = (2 * List.length data)%nat.
Proof.
  induction data as [|b data IH]; [reflexivity|].
  cbn [flat_map]. rewrite length_app, IH. cbn. lia.
Qed.

Lemma hex_alphabet data c :
  In c (flat_map Raw.hex_byte data) -> In c Raw.hexdigits.
Proof.
  intros H. apply in_flat_map in H as (b & _ & H).
  destruct (unhex_pair_hex_byte b) as (hi & lo & E & _ & Hh & Hl).
  rewrite E in H. destruct H as [<-|[<-|[]]]; assumption.
Qed.

(** X16. The text that [retrieve_secret_key] makes of a key has two
    characters for each byte, all of them among [0-9a-f], and spells the
    key back: reading the digit pairs gives the bytes it was made from,
    so two different keys never give the same text. *)
Theorem secret_key_hex_reads_back (data : bytes) :
  unhex (Raw.retrieve_secret_key data) = Some data /\
  List.length (list_ascii_of_string (Raw.retrieve_secret_key data)) =
    (2 * List.length data)%nat /\
  (forall c, In c (list_ascii_of_string (Raw.retrieve_secret_key data)) ->
             In c Raw.hexdigits) /\
  (forall other, Raw.retrieve_secret_key other = Raw.retrieve_secret_key data ->
                 other = data).
Proof.
  assert (R : forall d, unhex (Raw.retrieve_secret_key d) = Some d).
  { intros d. unfold unhex, Raw.retrieve_secret_key, Raw.hex.
    rewrite list_ascii_of_string_of_list_ascii. apply unhex_list_hex. }
  split; [apply R|]. unfold Raw.retrieve_secret_key, Raw.hex.
  rewrite list_ascii_of_string_of_list_ascii.
  split; [apply hex_length|]. split; [apply hex_alphabet|].
  intros other H. fold (Raw.hex other) (Raw.hex data) in H.
  pose proof (R other) as Ro. unfold Raw.retrieve_secret_key in Ro.
  rewrite H in Ro. fold (Raw.retrieve_secret_key data) in Ro.
  rewrite R in Ro. congruence.
Qed.

(** X16, on a sixteen-byte key. *)
Lemma secret_key_hex_reads_back_witness :
  unhex (Raw.retrieve_secret_key Fixtures.key) = Some Fixtures.key.
Proof.
  exact (proj1 (secret_key_hex_reads_back Fixtures.key)).
Defined.

Lemma byte_in_nul x : Raw.byte_in x [x00] = true <-> x = x00.
Proof.
  unfold Raw.byte_in. cbn [existsb]. rewrite orb_false_r. split.
  - apply byte_dec_bl.
  - apply byte_dec_lb.
Qed.

Lemma lstrip_nuls n m : Raw.lstrip [x00] (nuls n ++ m) = Raw.lstrip [x00] m.
Proof. induction n as [|n IH]; [reflexivity | exact IH]. Qed.

Lemma lstrip_id m : hd_error m <> Some x00 -> Raw.lstrip [x00] m = m.
Proof.
  destruct m as [|x m]; [reflexivity|]. cbn [hd_error Raw.lstrip]. intros H.
  destruct (Raw.byte_in x [x00]) eqn:E; [|reflexivity].
  apply byte_in_nul in E. congruence.
Qed.

Lemma lstrip_suffix chars l : exists p, l = p ++ Raw.lstrip chars l.
Proof.
  induction l as [|x l [p IH]]; [now exists []|]. cbn [Raw.lstrip].
  destruct (Raw.byte_in x chars); [|now exists []].
  exists (x :: p). cbn. now rewrite <- IH.
Qed.

Lemma lstrip_head l : hd_error (Raw.lstrip [x00] l) <> Some x00.
Proof.
  induction l as [|x l IH]; [discriminate|]. cbn [Raw.lstrip].
  destruct (Raw.byte_in x [x00]) eqn:E; [exact IH|].
  cbn. intros H. inversion H; subst. 
  assert (Raw.byte_in x00 [x00] = true) by now apply byte_in_nul. congruence.
Qed.

Lemma strip_padded a b m :
  no_outer_nul m -> Raw.strip [x00] (nuls a ++ m ++ nuls b) = m.
Proof.
  intros [H1 H2]. unfold Raw.strip, Raw.rstrip. rewrite lstrip_nuls.
  destruct m as [|x m].
  - cbn [app]. rewrite <- (app_nil_r (nuls b)), lstrip_nuls. reflexivity.
  - rewrite (lstrip_id ((x :: m) ++ nuls b)) by exact H1.
    rewrite rev_app_distr. unfold nuls at 1. rewrite rev_repeat. fold (nuls b).
    rewrite lstrip_nuls, (lstrip_id (rev (x :: m))) by exact H2.
    apply rev_involutive.
Qed.

Lemma strip_no_outer_nul data : no_outer_nul (Raw.strip [x00] data).
Proof.
  unfold Raw.strip, Raw.rstrip. set (L := Raw.lstrip [x00] data).
  split.
  - destruct (lstrip_suffix [x00] (rev L)) as [p Hp].
    apply (f_equal (@rev byte)) in Hp. rewrite rev_involutive, rev_app_distr in Hp.
    pose proof (lstrip_head data) as HL. fold L in HL.
    destruct (rev (Raw.lstrip [x00] (rev L))) as [|y r]; [discriminate|].
    rewrite Hp in HL. exact HL.
  - rewrite rev_involutive. apply lstrip_head.
Qed.

Lemma to_N_byte_of_ascii c : Byte.to_N (byte_of_ascii c) = N_of_ascii c.
Proof. apply to_of_N. symmetry. apply byte_of_ascii_via_N. Qed.

Lemma decode_encode s : forall start,
  Forall is_ascii (encode_ascii s) ->
  Raw.decode_ascii_from start (encode_ascii s) = Raw.Text s.
Proof.
  induction s as [|c s IH]; intros start H; [reflexivity|].
  unfold encode_ascii in *. cbn [list_ascii_of_string map Raw.decode_ascii_from] in *.
  inversion H as [|? ? Hc Hs]; subst. unfold is_ascii in Hc.
  apply N.ltb_lt in Hc. rewrite Hc, (IH (S start) Hs).
  now rewrite ascii_of_byte_of_ascii.
Qed.

Lemma decode_spec data : forall start,
  match Raw.decode_ascii_from start data with
  | Raw.Text s => encode_ascii s = data /\ Forall is_ascii data
  | Raw.UnicodeDecodeError k =>
      exists j b, k = (start + j)%nat /\ nth_error data j = Some b /\
                  ~ is_ascii b /\ Forall is_ascii (firstn j data)
  end.
Proof.
  induction data as [|b data IH]; intros start; cbn [Raw.decode_ascii_from].
  - split; [reflexivity | constructor].
  - destruct (N.ltb_spec (Byte.to_N b) 128) as [Hb|Hb].
    + specialize (IH (S start)).
      destruct (Raw.decode_ascii_from (S start) data) as [s|k].
      * destruct IH as [IH1 IH2]. split.
        -- unfold encode_ascii in *. cbn [list_ascii_of_string map].
           now rewrite byte_of_ascii_of_byte, IH1.
        -- now constructor.
      * destruct IH as (j & b' & -> & Hn & Hb' & Hf).
        exists (S j), b'. split; [lia|]. split; [exact Hn|].
        split; [exact Hb'|]. cbn [firstn]. now constructor.
    + exists 0%nat, b. split; [lia|]. split; [reflexivity|].
      split; [unfold is_ascii; lia | constructor].
Qed.

(** X17. [device_name] undoes the NUL padding of the slot: for every
    ASCII text that neither starts nor ends with NUL, the bytes of the
    text with any number of NUL bytes before and after read as that
    text; NUL bytes inside the text are kept. *)
Theorem device_name_of_padded (s : string) (a b : nat) :
  Forall is_ascii (encode_ascii s) ->
  no_outer_nul (encode_ascii s) ->
  Raw.device_name (nuls a ++ encode_ascii s ++ nuls b) = Raw.Text s.
Proof.
  intros Hascii Hnul. unfold Raw.device_name, Raw.decode_ascii.
  rewrite strip_padded by exact Hnul. now apply decode_encode.
Qed.

(** X17, on the name [eTRV] with two NUL bytes before and three after. *)
Lemma device_name_of_padded_witness :
  Raw.device_name (nuls 2 ++ encode_ascii "eTRV" ++ nuls 3) = Raw.Text "eTRV".
Proof.
  apply (device_name_of_padded "eTRV" 2 3).
  - repeat constructor.
  - split; vm_compute; discriminate.
Defined.

(** X18. What [device_name] returns, on any payload. When it returns a
    text, the text spells exactly the payload without its leading and
    trailing NUL bytes, and so neither starts nor ends with NUL. When it
    raises [UnicodeDecodeError], the position it reports is that of the
    first byte above 127 of the stripped payload. *)
Theorem device_name_result (data : bytes) :
  match Raw.device_name data with
  | Raw.Text s =>
      encode_ascii s = Raw.strip [x00] data /\
      no_outer_nul (encode_ascii s)
  | Raw.UnicodeDecodeError k =>
      exists b, nth_error (Raw.strip [x00] data) k = Some b /\
                ~ is_ascii b /\
                Forall is_ascii (firstn k (Raw.strip [x00] data))
  end.
Proof.
  unfold Raw.device_name, Raw.decode_ascii.
  pose proof (decode_spec (Raw.strip [x00] data) 0) as H.
  destruct (Raw.decode_ascii_from 0 (Raw.strip [x00] data)) as [s|k].
  - destruct H as [H _]. split; [exact H|]. rewrite H. apply strip_no_outer_nul.
  - destruct H as (j & b & -> & Hn & Hb & Hf). now exists b.
Qed.

(** X18, on a payload with a byte above 127 at position 3 once the
    leading NUL is stripped. *)
Lemma device_name_result_witness :
  match Raw.device_name [x00; x65; x00; x66; xc3; x00] with
  | Raw.Text s =>
      encode_ascii s = Raw.strip [x00] [x00; x65; x00; x66; xc3; x00] /\
      no_outer_nul (encode_ascii s)
  | Raw.UnicodeDecodeError k =>
      exists b,
        nth_error (Raw.strip [x00] [x00; x65; x00; x66; xc3; x00]) k = Some b /\
        ~ is_ascii b /\
        Forall is_ascii (firstn k (Raw.strip [x00] [x00; x65; x00; x66; xc3; x00]))
  end.
Proof.
  exact (device_name_result [x00; x65; x00; x66; xc3; x00]).
Defined.

(* ===================================================================== *)
(** ** The scan command *)
(* ===================================================================== *)

(** X20. When no scanned device advertises a complete local name that
    ends with the marker, [scan] yields nothing and [CLI.scan] prints
    its header line alone. *)
Theorem cli_scan_header_alone
        (scanner : Q -> list Scan.ScanEntry) (timeout : Q) :
  (forall dev, In dev (scanner timeout) -> ~ advertises_etrv dev) ->
  Scan.scan scanner timeout = [] /\
  Scan.CLI_scan scanner timeout = ["Detected eTRV devices:"%string].
Proof.
  intros Hnone.
  assert (E : Scan.scan scanner timeout = []).
  { destruct (Scan.scan scanner timeout) as [|dev l] eqn:E; [reflexivity|].
    exfalso.
    assert (Hin : In dev (Scan.scan scanner timeout)) by (rewrite E; now left).
    apply scan_membership in Hin as [Hin Hadv]. exact (Hnone dev Hin Hadv). }
  split; [exact E|]. unfold Scan.CLI_scan. now rewrite E.
Qed.

(** X20, on a scan that sees a plant sensor and a device with the marker
    in its shortened name only. *)
Lemma cli_scan_header_alone_witness :
  Scan.CLI_scan Fixtures.quiet_scanner 10 = ["Detected eTRV devices:"%string].
Proof.
  refine (proj2 (cli_scan_header_alone Fixtures.quiet_scanner 10 _)).
  intros dev [<-|[<-|[]]]; rewrite <- advertises_etrvb_spec;
    vm_compute; discriminate.
Defined.
